(** * flowercare-exporter: the caching collector and its configuration

    A shallow embedding of [collector.go] and [main.go].  The Go standard
    library and the two third-party packages the exporter calls ([time],
    [strings], [unicode/utf8], [miflora], [prometheus]) are modelled as far
    as the exporter uses them, each in a module of its own name.  The
    exporter's own code follows, function by function, and then the
    properties of the specification. *)

From Stdlib Require Import ZArith List String Ascii Bool Lia Floats.
Import ListNotations.
Open Scope Z_scope.

Set Warnings "-inexact-float".

(** ** Values of Go's basic types *)

(** [float64] is IEEE 754 binary64, which is what Rocq's primitive floats
    are.  [float64_of_Z] is Go's conversion [float64(n)] of an integer:
    round to nearest, ties to even. *)
Definition float64 : Set := float.

Definition float64_of_Z (z : Z) : float64 :=
  SF2Prim (binary_normalize 53 1024 z 0 false).

(** A Go [string] is a sequence of bytes, as is a Rocq [string]. *)
Definition byte_of (a : ascii) : Z := Z.of_N (N_of_ascii a).

Definition between (lo hi x : Z) : bool := (lo <=? x) && (x <=? hi).

(** ** Package time *)

Module time.

(** [type Duration int64], a count of nanoseconds. *)
Definition Duration : Set := Z.

Definition minDuration : Duration := - 2 ^ 63.
Definition maxDuration : Duration := 2 ^ 63 - 1.

Definition is_Duration (d : Duration) : Prop :=
  minDuration <= d <= maxDuration.

Definition Nanosecond : Duration := 1.
Definition Second : Duration := 1000000000 * Nanosecond.
Definition Minute : Duration := 60 * Second.

(** A [Time] is an instant with nanosecond precision; it is kept here as
    the number of nanoseconds since the Unix epoch.  The zero value of
    the Go type is January 1, year 1, 00:00:00 UTC. *)
Definition Time : Set := Z.

Definition unixToInternal : Z := (1969 * 365 + 1969 / 4 - 1969 / 100 + 1969 / 400) * 86400.

Definition zeroTime : Time := - unixToInternal * Second.

(** [t.Sub(u)]: the duration [t - u], and the largest (smallest)
    duration when [t - u] is above (below) what a [Duration] holds. *)
Definition Sub (t u : Time) : Duration :=
  let d := t - u in
  if d <? minDuration then minDuration
  else if maxDuration <? d then maxDuration
  else d.

(** [time.Since(t)] is [time.Now().Sub(t)]; the reading of the clock is
    passed in. *)
Definition Since (now t : Time) : Duration := Sub now t.

(** [t.Unix()]: whole seconds since the Unix epoch. *)
Definition Unix (t : Time) : Z := t / Second.

End time.

(** ** Package unicode/utf8 *)

Module utf8.

Definition continuation (lo hi : Z) (a : ascii) : bool :=
  between lo hi (byte_of a).

(** The range accepted for the second byte of a sequence that starts
    with [b], as in the package's [acceptRanges]. *)
Definition second_lo (b : Z) : Z :=
  if b =? 0xE0 then 0xA0 else if b =? 0xF0 then 0x90 else 0x80.

Definition second_hi (b : Z) : Z :=
  if b =? 0xED then 0x9F else if b =? 0xF4 then 0x8F else 0xBF.

(** [utf8.ValidString(s)]. *)
Fixpoint ValidString (s : string) : bool :=
  match s with
  | EmptyString => true
  | String a r =>
      let b := byte_of a in
      if b <? 0x80 then ValidString r
      else if between 0xC2 0xDF b then
        match r with
        | String a1 r1 => continuation 0x80 0xBF a1 && ValidString r1
        | _ => false
        end
      else if between 0xE0 0xEF b then
        match r with
        | String a1 (String a2 r2) =>
            continuation (second_lo b) (second_hi b) a1
            && continuation 0x80 0xBF a2 && ValidString r2
        | _ => false
        end
      else if between 0xF0 0xF4 b then
        match r with
        | String a1 (String a2 (String a3 r3)) =>
            continuation (second_lo b) (second_hi b) a1
            && continuation 0x80 0xBF a2 && continuation 0x80 0xBF a3
            && ValidString r3
        | _ => false
        end
      else false
  end.

End utf8.

(** ** Package strings *)

Module strings.

Definition lower_byte (a : ascii) : ascii :=
  if between 65 90 (byte_of a) then ascii_of_N (N_of_ascii a + 32) else a.

(** [strings.ToLower] on ASCII input, which is what a MAC address is: the
    letters A to Z are mapped to a to z.  (On other input Go also maps
    the upper-case letters of other scripts; those bytes are left as they
    are here.) *)
Fixpoint ToLower (s : string) : string :=
  match s with
  | EmptyString => EmptyString
  | String a r => String (lower_byte a) (ToLower r)
  end.

End strings.

(** ** Errors

    Go's [error] values, kept as a tree instead of as formatted text: every
    [fmt.Errorf] of the exporter wraps the error it was given. *)
Inductive error : Set :=
| errDevice (msg : string)
| errInvalidName (name : string)
| errInvalidLabelName (name : string)
| errDuplicateLabelNames
| errInconsistentCardinality (expected got : nat)
| errInvalidUTF8 (value : string)
| errCanNotCreateMetric (fqName : string) (cause : error)
| errCanNotReadFirmware (cause : error)
| errCanNotReadSensors (cause : error)
| errNeedDeviceAddress
| errNeedBluetoothDevice.

Inductive result (A : Type) : Type :=
| Ok (a : A)
| Err (e : error).
Arguments Ok {A} a.
Arguments Err {A} e.

(** ** Package miflora: what the device returns *)

Module miflora.

(** [Battery] is a Go [byte]. *)
Record Firmware : Set := mkFirmware {
  Version : string;
  Battery : Z
}.

(** [Moisture] is a [byte], [Light] and [Conductivity] are [uint16]. *)
Record Sensors : Set := mkSensors {
  Temperature : float64;
  Moisture : Z;
  Light : Z;
  Conductivity : Z
}.

(** One session with the device, as [readData] sees it: what
    [ReadFirmware] and [ReadSensors] return. *)
Record Miflora : Set := mkMiflora {
  ReadFirmware : result Firmware;
  ReadSensors : result Sensors
}.

End miflora.

(** ** Package prometheus *)

Module prometheus.

(** [Labels] is a [map[string]string]; the exporter's only one has a single
    key. *)
Definition Labels : Set := list (string * string).

Definition is_letter (b : Z) : bool :=
  between 97 122 b || between 65 90 b || (b =? 95).

Definition is_digit (b : Z) : bool := between 48 57 b.

Fixpoint name_tail (colon : bool) (s : string) : bool :=
  match s with
  | EmptyString => true
  | String a r =>
      let b := byte_of a in
      (is_letter b || is_digit b || (colon && (b =? 58))) && name_tail colon r
  end.

Definition name_ok (colon : bool) (s : string) : bool :=
  match s with
  | EmptyString => false
  | String a r =>
      let b := byte_of a in
      (is_letter b || (colon && (b =? 58))) && name_tail colon r
  end.

(** [model.IsValidMetricName]: [[a-zA-Z_:][a-zA-Z0-9_:]*]. *)
Definition IsValidMetricName (s : string) : bool := name_ok true s.

(** [checkLabelName]: [[a-zA-Z_][a-zA-Z0-9_]*], not starting with two
    underscores. *)
Definition checkLabelName (s : string) : bool :=
  name_ok false s && negb (prefix "__" s).

(** [validateLabelValues]: as many values as expected, each valid UTF-8. *)
Fixpoint firstInvalid (vals : list string) : option string :=
  match vals with
  | [] => None
  | v :: r => if utf8.ValidString v then firstInvalid r else Some v
  end.

Definition validateLabelValues (vals : list string) (expected : nat) : option error :=
  if negb (Nat.eqb (List.length vals) expected)
  then Some (errInconsistentCardinality expected (List.length vals))
  else match firstInvalid vals with
       | Some v => Some (errInvalidUTF8 v)
       | None => None
       end.

(** A descriptor; [err] is the error [NewDesc] found, if any. *)
Record Desc : Set := mkDesc {
  fqName : string;
  help : string;
  constLabelPairs : Labels;
  variableLabels : list string;
  err : option error
}.

Fixpoint firstBadLabel (names : list string) : option string :=
  match names with
  | [] => None
  | n :: r => if checkLabelName n then firstBadLabel r else Some n
  end.

Fixpoint has_duplicate (names : list string) : bool :=
  match names with
  | [] => false
  | n :: r => existsb (String.eqb n) r || has_duplicate r
  end.

Definition descError (name : string) (variable : list string) (const : Labels)
  : option error :=
  if negb (IsValidMetricName name) then Some (errInvalidName name)
  else match firstBadLabel (map fst const) with
  | Some l => Some (errInvalidLabelName l)
  | None =>
  match validateLabelValues (name :: map snd const) (S (List.length const)) with
  | Some e => Some e
  | None =>
  match firstBadLabel variable with
  | Some l => Some (errInvalidLabelName l)
  | None =>
  if has_duplicate (map fst const ++ variable)
  then Some errDuplicateLabelNames else None
  end end end.

(** [prometheus.NewDesc]: an invalid descriptor is returned all the same,
    with its error inside and without its constant labels, which are stored
    once every check has passed. *)
Definition NewDesc (name hlp : string) (variable : list string) (const : Labels)
  : Desc :=
  mkDesc name hlp
    (match descError name variable const with
     | None => const
     | Some _ => []
     end)
    variable (descError name variable const).

Inductive ValueType : Set := CounterValue | GaugeValue | UntypedValue.

(** What a scrape receives for one metric. *)
Record Metric : Set := mkMetric {
  desc : Desc;
  valType : ValueType;
  value : float64;
  labelValues : list string
}.

(** [prometheus.NewConstMetric]: fails on an invalid descriptor, on a
    number of label values other than the descriptor's number of variable
    labels, and on a label value that is not valid UTF-8. *)
Definition NewConstMetric (d : Desc) (vt : ValueType) (v : float64)
  (labels : list string) : result Metric :=
  match err d with
  | Some e => Err e
  | None =>
      match validateLabelValues labels (List.length (variableLabels d)) with
      | Some e => Err e
      | None => Ok (mkMetric d vt v labels)
      end
  end.

(** A [Gauge] holds a value that [Set] overwrites. *)
Record Gauge : Set := mkGauge {
  gaugeDesc : Desc;
  gaugeValue : float64
}.

Definition NewGauge (name hlp : string) (const : Labels) : Gauge :=
  mkGauge (NewDesc name hlp [] const) 0%float.

Definition Gauge_Set (g : Gauge) (v : float64) : Gauge :=
  mkGauge (gaugeDesc g) v.

(** A [Counter] is known by the number of times [Inc] was called on it,
    each call adding one. *)
Record Counter : Set := mkCounter {
  counterDesc : Desc;
  counterValue : Z
}.

Definition NewCounter (name hlp : string) (const : Labels) : Counter :=
  mkCounter (NewDesc name hlp [] const) 0.

Definition Counter_Inc (c : Counter) : Counter :=
  mkCounter (counterDesc c) (counterValue c + 1).

(** [g.Collect(ch)] and [c.Collect(ch)] send the metric itself; the scrape
    reads its current value. *)
Definition Gauge_Collect (g : Gauge) : Metric :=
  mkMetric (gaugeDesc g) GaugeValue (gaugeValue g) [].

Definition Counter_Collect (c : Counter) : Metric :=
  mkMetric (counterDesc c) CounterValue (float64_of_Z (counterValue c)) [].

End prometheus.

Import miflora prometheus.

(** ** collector.go *)

Definition metricPrefix : string := "flowercare_".

(** Conversion factor from µS/cm to S/m. *)
Definition factorConductivity : float64 := 0.0001%float.

Record sensorData : Set := mkSensorData {
  Time : time.Time;
  Firmware : miflora.Firmware;
  Sensors : miflora.Sensors
}.

(** The zero value of [sensorData], which a new collector's cache holds. *)
Definition zeroSensorData : sensorData :=
  mkSensorData time.zeroTime (mkFirmware EmptyString 0) (mkSensors 0%float 0 0 0).

Record flowercareCollector : Set := mkCollector {
  MacAddress : string;
  Device : string;
  CacheDuration : time.Duration;

  cache : sensorData;
  upMetric : Gauge;
  scrapeErrorsMetric : Counter;
  scrapeTimestampDesc : Desc;
  infoDesc : Desc;
  batteryDesc : Desc;
  conductivityDesc : Desc;
  lightDesc : Desc;
  moistureDesc : Desc;
  temperatureDesc : Desc
}.

Definition newCollector (macAddress device : string) (cacheDuration : time.Duration)
  : flowercareCollector :=
  let constLabels : Labels := [("macaddress"%string, strings.ToLower macAddress)] in
  {| MacAddress := macAddress;
     Device := device;
     CacheDuration := cacheDuration;
     cache := zeroSensorData;
     upMetric :=
       NewGauge (metricPrefix ++ "up")
         "Shows if data could be successfully retrieved by the collector."
         constLabels;
     scrapeErrorsMetric :=
       NewCounter (metricPrefix ++ "scrape_errors_total")
         "Counts the number of scrape errors by this collector."
         constLabels;
     scrapeTimestampDesc :=
       NewDesc (metricPrefix ++ "scrape_timestamp")
         "Contains the timestamp when the last communication with the Bluetooth device happened."
         [] constLabels;
     infoDesc :=
       NewDesc (metricPrefix ++ "info")
         "Contains information about the Flower Care device."
         ["version"%string] constLabels;
     batteryDesc :=
       NewDesc (metricPrefix ++ "battery_percent")
         "Battery level in percent."
         [] constLabels;
     conductivityDesc :=
       NewDesc (metricPrefix ++ "conductivity_sm")
         "Soil conductivity in Siemens/meter."
         [] constLabels;
     lightDesc :=
       NewDesc (metricPrefix ++ "brightness_lux")
         "Ambient lighting in lux."
         [] constLabels;
     moistureDesc :=
       NewDesc (metricPrefix ++ "moisture_percent")
         "Soil relative moisture in percent."
         [] constLabels;
     temperatureDesc :=
       NewDesc (metricPrefix ++ "temperature_celsius")
         "Ambient temperature in celsius."
         [] constLabels |}.

(** The three assignments [Collect] makes to the collector. *)
Definition with_cache (c : flowercareCollector) (d : sensorData) : flowercareCollector :=
  mkCollector (MacAddress c) (Device c) (CacheDuration c) d (upMetric c)
    (scrapeErrorsMetric c) (scrapeTimestampDesc c) (infoDesc c) (batteryDesc c)
    (conductivityDesc c) (lightDesc c) (moistureDesc c) (temperatureDesc c).

Definition with_upMetric (c : flowercareCollector) (g : Gauge) : flowercareCollector :=
  mkCollector (MacAddress c) (Device c) (CacheDuration c) (cache c) g
    (scrapeErrorsMetric c) (scrapeTimestampDesc c) (infoDesc c) (batteryDesc c)
    (conductivityDesc c) (lightDesc c) (moistureDesc c) (temperatureDesc c).

Definition with_scrapeErrorsMetric (c : flowercareCollector) (k : Counter)
  : flowercareCollector :=
  mkCollector (MacAddress c) (Device c) (CacheDuration c) (cache c) (upMetric c)
    k (scrapeTimestampDesc c) (infoDesc c) (batteryDesc c)
    (conductivityDesc c) (lightDesc c) (moistureDesc c) (temperatureDesc c).

(** A channel [chan<- T] is the list of what was sent on it, oldest
    first. *)
Definition chan (T : Type) : Type := list T.

Definition send {T : Type} (ch : chan T) (x : T) : chan T := ch ++ [x].

Definition Describe (c : flowercareCollector) (ch : chan Desc) : chan Desc :=
  let ch := send ch (gaugeDesc (upMetric c)) in
  let ch := send ch (counterDesc (scrapeErrorsMetric c)) in
  let ch := send ch (scrapeTimestampDesc c) in
  let ch := send ch (infoDesc c) in
  let ch := send ch (batteryDesc c) in
  let ch := send ch (conductivityDesc c) in
  let ch := send ch (lightDesc c) in
  let ch := send ch (moistureDesc c) in
  send ch (temperatureDesc c).

(** The error names the descriptor by its [fqName] where Go prints the
    whole descriptor. *)
Definition sendMetric (ch : chan Metric) (d : Desc) (v : float64)
  (labels : list string) : chan Metric * option error :=
  match NewConstMetric d GaugeValue v labels with
  | Err e => (ch, Some (errCanNotCreateMetric (fqName d) e))
  | Ok m => (send ch m, None)
  end.

(** The [for ... range] loop of [collectData] over its literal slice. *)
Fixpoint rangeSend (ch : chan Metric) (metrics : list (Desc * float64))
  : chan Metric * option error :=
  match metrics with
  | [] => (ch, None)
  | (d, v) :: rest =>
      match sendMetric ch d v [] with
      | (ch', Some e) => (ch', Some e)
      | (ch', None) => rangeSend ch' rest
      end
  end.

Definition collectData (c : flowercareCollector) (ch : chan Metric)
  (data : sensorData) : chan Metric * option error :=
  match sendMetric ch (scrapeTimestampDesc c)
          (float64_of_Z (time.Unix (Time data))) [] with
  | (ch, Some e) => (ch, Some e)
  | (ch, None) =>
  match sendMetric ch (infoDesc c) 1%float [Version (Firmware data)] with
  | (ch, Some e) => (ch, Some e)
  | (ch, None) =>
      rangeSend ch
        [ (batteryDesc c, float64_of_Z (Battery (Firmware data)));
          (conductivityDesc c,
            (float64_of_Z (Conductivity (Sensors data)) * factorConductivity)%float);
          (lightDesc c, float64_of_Z (Light (Sensors data)));
          (moistureDesc c, float64_of_Z (Moisture (Sensors data)));
          (temperatureDesc c, Temperature (Sensors data)) ]
  end end.

(** What [Collect] does besides sending metrics: calls to the device and
    lines written to the log, in the order they happen. *)
Inductive event : Set :=
| evReadFirmware
| evReadSensors
| evLogErrorDuringScrape (e : error)
| evLogErrorCollectingMetrics (e : error).

(** [readData] opens a session with the device ([f]) and reads the clock
    ([now]) once both reads have succeeded.  [ReadSensors] is not called
    when [ReadFirmware] has failed. *)
Definition readData (c : flowercareCollector) (f : Miflora) (now : time.Time)
  : result sensorData * list event :=
  match ReadFirmware f with
  | Err e => (Err (errCanNotReadFirmware e), [evReadFirmware])
  | Ok firmware =>
      match ReadSensors f with
      | Err e => (Err (errCanNotReadSensors e), [evReadFirmware; evReadSensors])
      | Ok sensors =>
          (Ok (mkSensorData now firmware sensors), [evReadFirmware; evReadSensors])
      end
  end.

(** What one call of [Collect] takes from the outside: the clock at the
    staleness test, the device session and the clock of [readData] (used
    only if a refresh is attempted), and the clock at the freshness
    test. *)
Record scrape : Set := mkScrape {
  atCheck : time.Time;
  session : Miflora;
  atRead : time.Time;
  atEmit : time.Time
}.

(** What one call of [Collect] leaves behind: the collector, the channel
    and the events. *)
Record collected : Type := mkCollected {
  after : flowercareCollector;
  sent : chan Metric;
  events : list event
}.

Definition Collect (c : flowercareCollector) (w : scrape) (ch : chan Metric)
  : collected :=
  let '(c, evs) :=
    if time.Since (atCheck w) (Time (cache c)) >? CacheDuration c then
      match readData c (session w) (atRead w) with
      | (Err e, evs) =>
          let evs := evs ++ [evLogErrorDuringScrape e] in
          let c := with_scrapeErrorsMetric c (Counter_Inc (scrapeErrorsMetric c)) in
          let c := with_upMetric c (Gauge_Set (upMetric c) 0%float) in
          (c, evs)
      | (Ok data, evs) =>
          let c := with_upMetric c (Gauge_Set (upMetric c) 1%float) in
          let c := with_cache c data in
          (c, evs)
      end
    else (c, []) in
  let ch := send ch (Gauge_Collect (upMetric c)) in
  let ch := send ch (Counter_Collect (scrapeErrorsMetric c)) in
  if time.Since (atEmit w) (Time (cache c)) <? CacheDuration c then
    match collectData c ch (cache c) with
    | (ch, Some e) => mkCollected c ch (evs ++ [evLogErrorCollectingMetrics e])
    | (ch, None) => mkCollected c ch evs
    end
  else mkCollected c ch evs.

(** A sequence of scrapes, each sending on a channel of its own. *)
Fixpoint scrapes (c : flowercareCollector) (ws : list scrape) : flowercareCollector :=
  match ws with
  | [] => c
  | w :: rest => scrapes (after (Collect c w [])) rest
  end.

(** ** main.go *)

Record config : Set := mkConfig {
  ListenAddr : string;
  cfgMacAddress : string;
  cfgDevice : string;
  cfgCacheDuration : time.Duration
}.

(** The command line after [pflag.Parse]: for each flag, the value given,
    if it was given. *)
Record flags : Set := mkFlags {
  flagAddr : option string;
  flagDevice : option string;
  flagAdapter : option string;
  flagCacheDuration : option time.Duration
}.

Definition flagOr {T : Type} (given : option T) (default : T) : T :=
  match given with
  | Some v => v
  | None => default
  end.

Definition parseConfig (args : flags) : config * option error :=
  let result :=
    {| ListenAddr := ":9294";
       cfgMacAddress := EmptyString;
       cfgDevice := "hci0";
       cfgCacheDuration := 2 * time.Minute |} in
  let result :=
    {| ListenAddr := flagOr (flagAddr args) (ListenAddr result);
       cfgMacAddress := flagOr (flagDevice args) (cfgMacAddress result);
       cfgDevice := flagOr (flagAdapter args) (cfgDevice result);
       cfgCacheDuration := flagOr (flagCacheDuration args) (cfgCacheDuration result) |} in
  if Nat.eqb (String.length (cfgMacAddress result)) 0 then
    (result, Some errNeedDeviceAddress)
  else if Nat.eqb (String.length (cfgDevice result)) 0 then
    (result, Some errNeedBluetoothDevice)
  else (result, None).

(** What [main] does, in order.  [log.Fatalf] ends the process, so nothing
    follows it. *)
Inductive action : Set :=
| actFatalConfiguration (e : error)
| actLogLookingFor (mac device : string)
| actDataReader (mac device : string)
| actNewCollector (cacheDuration : time.Duration) (mac : string)
| actRegister
| actFatalRegister (e : error)
| actHandleMetrics
| actHandleRedirect
| actLogListenOn (addr : string)
| actListenAndServe (addr : string).

(** [registered] is what [prometheus.Register] returns, should [main] get
    that far. *)
Definition main (args : flags) (registered : option error) : list action :=
  match parseConfig args with
  | (_, Some e) => [actFatalConfiguration e]
  | (config, None) =>
      [ actLogLookingFor (cfgMacAddress config) (cfgDevice config);
        actDataReader (cfgMacAddress config) (cfgDevice config);
        actNewCollector (cfgCacheDuration config) (cfgMacAddress config);
        actRegister ]
      ++ match registered with
         | Some e => [actFatalRegister e]
         | None =>
             [ actHandleMetrics;
               actHandleRedirect;
               actLogListenOn (ListenAddr config);
               actListenAndServe (ListenAddr config) ]
         end
  end.

(** The actions that reach the device or the network. *)
Definition touchesOutside (a : action) : bool :=
  match a with
  | actDataReader _ _ | actListenAndServe _ => true
  | _ => false
  end.

(** * Notions of the specification

    Definitions in which the properties below are stated: the two tests of
    [Collect], what a call does to the collector, the sensor metrics in
    their order, sequences of scrapes. *)

(** ** The two tests of [Collect] *)

(** The test that guards the refresh: the cache is older than
    [CacheDuration]. *)
Definition stale (c : flowercareCollector) (w : scrape) : bool :=
  time.Since (atCheck w) (Time (cache c)) >? CacheDuration c.

(** The test that guards [collectData]: the cache is younger than
    [CacheDuration]. *)
Definition fresh (c : flowercareCollector) (w : scrape) : bool :=
  time.Since (atEmit w) (Time (cache c)) <? CacheDuration c.

(** A call attempted a refresh when it called the device. *)
Definition isDeviceCall (e : event) : bool :=
  match e with
  | evReadFirmware | evReadSensors => true
  | _ => false
  end.

Definition refreshAttempted (r : collected) : bool :=
  existsb isDeviceCall (events r).

(** The refresh failed when the call logged the error of the scrape. *)
Definition isScrapeError (e : event) : bool :=
  match e with
  | evLogErrorDuringScrape _ => true
  | _ => false
  end.

Definition refreshFailed (r : collected) : bool :=
  existsb isScrapeError (events r).

(** The device does not answer one of the two reads of [readData]: the
    firmware, or the sensors once the firmware has been read. *)
Definition sessionFails (f : Miflora) : bool :=
  match ReadFirmware f with
  | Err _ => true
  | Ok _ =>
      match ReadSensors f with
      | Err _ => true
      | Ok _ => false
      end
  end.

(** The collector after the first [if] of [Collect]. *)
Definition refreshed (c : flowercareCollector) (w : scrape) : flowercareCollector :=
  if stale c w then
    match fst (readData c (session w) (atRead w)) with
    | Err _ =>
        with_upMetric
          (with_scrapeErrorsMetric c (Counter_Inc (scrapeErrorsMetric c)))
          (Gauge_Set (upMetric c) 0%float)
    | Ok data => with_cache (with_upMetric c (Gauge_Set (upMetric c) 1%float)) data
    end
  else c.

(** ** The sensor metrics, in the order [collectData] sends them *)

Definition sensorMetrics (c : flowercareCollector) (data : sensorData) : list Metric :=
  [ mkMetric (scrapeTimestampDesc c) GaugeValue
      (float64_of_Z (time.Unix (Time data))) [];
    mkMetric (infoDesc c) GaugeValue 1%float [Version (Firmware data)];
    mkMetric (batteryDesc c) GaugeValue
      (float64_of_Z (Battery (Firmware data))) [];
    mkMetric (conductivityDesc c) GaugeValue
      (float64_of_Z (Conductivity (Sensors data)) * factorConductivity)%float [];
    mkMetric (lightDesc c) GaugeValue (float64_of_Z (Light (Sensors data))) [];
    mkMetric (moistureDesc c) GaugeValue (float64_of_Z (Moisture (Sensors data))) [];
    mkMetric (temperatureDesc c) GaugeValue (Temperature (Sensors data)) [] ].

(** The error, if any, that constructing [m] as a constant metric gives. *)
Definition constructionError (m : Metric) : option error :=
  match NewConstMetric (desc m) (valType m) (value m) (labelValues m) with
  | Ok _ => None
  | Err e => Some e
  end.

(** The position of the first metric of [ms] that cannot be constructed,
    and the length of [ms] when all can. *)
Fixpoint firstFailure (ms : list Metric) : nat :=
  match ms with
  | [] => O
  | m :: rest =>
      match constructionError m with
      | Some _ => O
      | None => S (firstFailure rest)
      end
  end.

(** Sending the metrics of a list one after the other, up to the first
    failure. *)
Fixpoint sendAll (ch : chan Metric) (ms : list Metric) : chan Metric * option error :=
  match ms with
  | [] => (ch, None)
  | m :: rest =>
      match sendMetric ch (desc m) (value m) (labelValues m) with
      | (ch', Some e) => (ch', Some e)
      | (ch', None) => sendAll ch' rest
      end
  end.

Definition allGauges (ms : list Metric) : Prop :=
  Forall (fun m => valType m = GaugeValue) ms.

(** The events of the first [if] of [Collect]. *)
Definition refreshEvents (c : flowercareCollector) (w : scrape) : list event :=
  if stale c w then
    match readData c (session w) (atRead w) with
    | (Err e, evs) => evs ++ [evLogErrorDuringScrape e]
    | (Ok _, evs) => evs
    end
  else [].

(** The sensor metrics a call sends: none unless the cache is fresh, and
    then those before the first that cannot be constructed. *)
Definition sensorPart (c : flowercareCollector) (w : scrape) : list Metric :=
  if fresh c w
  then firstn (firstFailure (sensorMetrics c (cache c))) (sensorMetrics c (cache c))
  else [].

(** ** Sequences of scrapes *)

(** The number of scrapes of a sequence that find the cache older than
    [CacheDuration] and the device not answering. *)
Fixpoint failedRefreshes (c : flowercareCollector) (ws : list scrape) : Z :=
  match ws with
  | [] => 0
  | w :: rest =>
      (if stale c w && sessionFails (session w) then 1 else 0)
      + failedRefreshes (after (Collect c w [])) rest
  end.

(** No scrape of the sequence attempts a refresh. *)
Fixpoint noRefreshIn (c : flowercareCollector) (ws : list scrape) : Prop :=
  match ws with
  | [] => True
  | w :: rest =>
      refreshAttempted (Collect c w []) = false
      /\ noRefreshIn (after (Collect c w [])) rest
  end.

(** The collectors the exporter can be in: a new one, and what a scrape
    makes of one. *)
Inductive reachable (mac device : string) (d : time.Duration)
  : flowercareCollector -> Prop :=
| reachable_new : reachable mac device d (newCollector mac device d)
| reachable_Collect (c : flowercareCollector) (w : scrape) (ch : chan Metric) :
    reachable mac device d c ->
    reachable mac device d (after (Collect c w ch)).

(** A reading is in the cache once a refresh has stored one; until then
    the cache holds the zero time ([readingPresent_was_read] and
    [refresh_makes_present] below). *)
Definition readingPresent (c : flowercareCollector) : Prop :=
  Time (cache c) <> time.zeroTime.

(** The clock of the machine shows a date not before 1970. *)
Definition sinceEpoch (t : time.Time) : Prop := 0 <= t.

(** ** Three readings the code does not bear out *)

(** The reading of "a metric that fails is skipped" under which the metrics
    after it are sent all the same: every sensor metric that can be
    constructed is on the channel after [collectData]. *)
Definition othersStillEmitted (c : flowercareCollector) (data : sensorData) : Prop :=
  forall m, In m (sensorMetrics c data) -> constructionError m = None ->
            In m (fst (collectData c [] data)).

(** "The first scrape of a collector with cache duration [d] attempts a
    refresh", whatever the device address, the adapter and the scrape. *)
Definition firstScrapeRefreshes (d : time.Duration) : Prop :=
  forall (mac device : string) (w : scrape) (ch : chan Metric),
    sinceEpoch (atCheck w) ->
    refreshAttempted (Collect (newCollector mac device d) w ch) = true.

(** "With cache duration [d], every scrape attempts a refresh", for a clock
    that does not run backwards. *)
Definition everyScrapeRefreshes (d : time.Duration) : Prop :=
  forall (c : flowercareCollector) (w : scrape) (ch : chan Metric),
    CacheDuration c = d ->
    Time (cache c) <= atCheck w ->
    refreshAttempted (Collect c w ch) = true.

(** ** Data for the examples *)

Definition exampleCollector : flowercareCollector :=
  newCollector "C4:7C:8D:6A:5B:4E" "hci0" (2 * time.Minute).

(** The reading of the clock on 30 October 2026, in nanoseconds. *)
Definition someDay : time.Time := 1793318400 * time.Second.

Definition exampleSession : Miflora :=
  mkMiflora (Ok (mkFirmware "1.2" 80)) (Ok (mkSensors 22.5%float 30 1200 350)).

Definition failingSession : Miflora :=
  mkMiflora (Err (errDevice "timeout")) (Ok (mkSensors 22.5%float 30 1200 350)).

(** A collector configured with [--cache-duration 0], after a first scrape
    on [someDay]. *)
Definition uncachedCollector : flowercareCollector :=
  after (Collect (newCollector "C4:7C:8D:6A:5B:4E" "hci0" 0)
           (mkScrape someDay exampleSession someDay someDay) []).

(** A firmware version that is not valid UTF-8: the single byte 0xFF. *)
Definition garbledVersion : string := String "255"%char EmptyString.

Definition garbledData : sensorData :=
  mkSensorData 0 (mkFirmware garbledVersion 80) (mkSensors 22.5%float 30 1200 350).

Definition exampleData : sensorData :=
  mkSensorData 0 (mkFirmware "1.2" 80) (mkSensors 22.5%float 30 1200 350).

Definition garbledSession : Miflora :=
  mkMiflora (Ok (mkFirmware garbledVersion 80)) (Ok (mkSensors 22.5%float 30 1200 350)).

(** The example collector with an info descriptor that declares no
    [version] label, so that the label value [collectData] passes is one too
    many. *)
Definition mislabelledCollector : flowercareCollector :=
  let c := exampleCollector in
  mkCollector (MacAddress c) (Device c) (CacheDuration c) (cache c) (upMetric c)
    (scrapeErrorsMetric c) (scrapeTimestampDesc c)
    (NewDesc (metricPrefix ++ "info")
       "Contains information about the Flower Care device."
       [] (constLabelPairs (infoDesc c)))
    (batteryDesc c) (conductivityDesc c) (lightDesc c) (moistureDesc c)
    (temperatureDesc c).

(** The example collector after a first scrape on [someDay]. *)
Definition cachedCollector : flowercareCollector :=
  after (Collect exampleCollector (mkScrape someDay exampleSession someDay someDay) []).

(** ** Notions for the further properties *)

(** A string of ASCII bytes, as a MAC address is. *)
Fixpoint isASCII (s : string) : bool :=
  match s with
  | EmptyString => true
  | String a r => (byte_of a <? 0x80) && isASCII r
  end.

(** What the device did at the last scrape of a sequence that found the
    cache older than [CacheDuration]: [Some true] when it answered both
    reads, [Some false] when it did not, and [prev] when no scrape of the
    sequence found the cache that old. *)
Fixpoint lastRefresh (c : flowercareCollector) (ws : list scrape) (prev : option bool)
  : option bool :=
  match ws with
  | [] => prev
  | w :: rest =>
      lastRefresh (after (Collect c w [])) rest
        (if stale c w then Some (negb (sessionFails (session w))) else prev)
  end.

(** The value of the liveness gauge that goes with such an outcome, [init]
    being the value before the sequence. *)
Definition gaugeAfter (outcome : option bool) (init : float64) : float64 :=
  match outcome with
  | Some true => 1%float
  | Some false => 0%float
  | None => init
  end.

(** [data] is the reading of one of the scrapes [ws]: the device answered
    both reads of that scrape, and [data] is what it answered, stamped with
    the clock of [readData] of that scrape. *)
Definition readFrom (ws : list scrape) (data : sensorData) : Prop :=
  exists w firmware sensors,
    In w ws
    /\ ReadFirmware (session w) = Ok firmware
    /\ ReadSensors (session w) = Ok sensors
    /\ data = mkSensorData (atRead w) firmware sensors.

(** What [pflag.Parse] makes of the command line: it ends the process
    itself, with status 2 on a command line it cannot parse and 0 after the
    help, or it returns with the flags parsed. *)
Inductive parsing : Set :=
| pflagExits (status : Z)
| pflagParsed (args : flags).

(** [parseConfig] with its call of [pflag.Parse]: when [pflag.Parse] ends
    the process, [parseConfig] does not return. *)
Inductive startup : Set :=
| exited (status : Z)
| returned (c : config) (e : option error).

Definition parseConfigFrom (p : parsing) : startup :=
  match p with
  | pflagExits status => exited status
  | pflagParsed args => returned (fst (parseConfig args)) (snd (parseConfig args))
  end.

(** The nine descriptors of a collector, in the order of [Describe]. *)
Definition descriptors (c : flowercareCollector) : list Desc :=
  [ gaugeDesc (upMetric c); counterDesc (scrapeErrorsMetric c);
    scrapeTimestampDesc c; infoDesc c; batteryDesc c; conductivityDesc c;
    lightDesc c; moistureDesc c; temperatureDesc c ].

(** A session in which the firmware is read and the sensors are not. *)
Definition halfSession : Miflora :=
  mkMiflora (Ok (mkFirmware "1.2" 80)) (Err (errDevice "timeout")).

(** * Properties of the collector *)

(** ** Sending metrics *)

Lemma NewConstMetric_Ok (d : Desc) (vt : ValueType) (v : float64)
  (labels : list string) (m : Metric) :
  NewConstMetric d vt v labels = Ok m -> m = mkMetric d vt v labels.
Proof.
  unfold NewConstMetric.
  destruct (err d); [discriminate|].
  destruct (validateLabelValues _ _); [discriminate|].
  now intros [= <-].
Qed.

Lemma sendMetric_gauge (ch : chan Metric) (m : Metric) :
  valType m = GaugeValue ->
  sendMetric ch (desc m) (value m) (labelValues m) =
    match constructionError m with
    | None => (ch ++ [m], None)
    | Some e => (ch, Some (errCanNotCreateMetric (fqName (desc m)) e))
    end.
Proof.
  intros Hg. unfold sendMetric, constructionError. rewrite Hg.
  destruct (NewConstMetric _ _ _ _) as [m'|e] eqn:E; [|reflexivity].
  apply NewConstMetric_Ok in E. subst m'. unfold send.
  destruct m as [d vt v l]; simpl in *. now subst vt.
Qed.

Lemma collectData_sendAll (c : flowercareCollector) (ch : chan Metric)
  (data : sensorData) :
  collectData c ch data = sendAll ch (sensorMetrics c data).
Proof.
  unfold collectData, sensorMetrics. cbn [sendAll desc value labelValues].
  destruct (sendMetric ch (scrapeTimestampDesc c) _ _) as [ch1 [e|]]; [reflexivity|].
  destruct (sendMetric ch1 (infoDesc c) _ _) as [ch2 [e|]]; [reflexivity|].
  reflexivity.
Qed.

Lemma sensorMetrics_gauges (c : flowercareCollector) (data : sensorData) :
  allGauges (sensorMetrics c data).
Proof. unfold allGauges, sensorMetrics. repeat constructor. Qed.

Lemma sendAll_sent (ms : list Metric) :
  allGauges ms ->
  forall ch, fst (sendAll ch ms) = ch ++ firstn (firstFailure ms) ms.
Proof.
  induction 1 as [|m rest Hm _ IH]; intros ch; simpl.
  - now rewrite app_nil_r.
  - rewrite (sendMetric_gauge ch m Hm).
    destruct (constructionError m); simpl.
    + now rewrite app_nil_r.
    + rewrite IH, <- app_assoc. reflexivity.
Qed.

Lemma sendAll_error (ms : list Metric) :
  allGauges ms ->
  forall ch, snd (sendAll ch ms) =
    match nth_error ms (firstFailure ms) with
    | None => None
    | Some m =>
        match constructionError m with
        | Some e => Some (errCanNotCreateMetric (fqName (desc m)) e)
        | None => None
        end
    end.
Proof.
  induction 1 as [|m rest Hm _ IH]; intros ch; simpl.
  - reflexivity.
  - rewrite (sendMetric_gauge ch m Hm).
    destruct (constructionError m) eqn:E; simpl.
    + now rewrite E.
    + apply IH.
Qed.

(** [firstFailure] is the position the words "the first that fails"
    describe. *)
Lemma firstFailure_at (ms : list Metric) (k : nat) (m : Metric) (e : error) :
  (forall j m', (j < k)%nat -> nth_error ms j = Some m' -> constructionError m' = None) ->
  nth_error ms k = Some m ->
  constructionError m = Some e ->
  firstFailure ms = k.
Proof.
  revert k. induction ms as [|a rest IH]; intros [|k] Hbefore Hk He; simpl in *;
    try discriminate.
  - injection Hk as ->. now rewrite He.
  - rewrite (Hbefore O a (Nat.lt_0_succ k) eq_refl). f_equal.
    apply IH; [|assumption..].
    intros j m' Hj Hm'. apply (Hbefore (S j) m'); [lia|assumption].
Qed.

Lemma firstFailure_none (ms : list Metric) :
  (forall m, In m ms -> constructionError m = None) ->
  firstFailure ms = List.length ms.
Proof.
  induction ms as [|a rest IH]; intros Hall; simpl; [reflexivity|].
  rewrite (Hall a (or_introl eq_refl)). f_equal.
  apply IH. intros m Hm. apply Hall. now right.
Qed.

Lemma firstFailure_le (ms : list Metric) : (firstFailure ms <= List.length ms)%nat.
Proof.
  induction ms as [|a rest IH]; simpl; [lia|].
  destruct (constructionError a); lia.
Qed.

Lemma firstFailure_before (ms : list Metric) (j : nat) (m : Metric) :
  (j < firstFailure ms)%nat -> nth_error ms j = Some m -> constructionError m = None.
Proof.
  revert j. induction ms as [|a rest IH]; intros j Hj Hm; simpl in *; [lia|].
  destruct (constructionError a) eqn:E; [lia|].
  destruct j as [|j]; simpl in Hm.
  - now injection Hm as <-.
  - apply (IH j); [lia|assumption].
Qed.

(** ** [Collect], piece by piece *)

Lemma Collect_unfold (c : flowercareCollector) (w : scrape) (ch : chan Metric) :
  Collect c w ch =
    let c' := refreshed c w in
    let ch' := send (send ch (Gauge_Collect (upMetric c')))
                 (Counter_Collect (scrapeErrorsMetric c')) in
    if fresh c' w then
      match collectData c' ch' (cache c') with
      | (ch'', Some e) =>
          mkCollected c' ch'' (refreshEvents c w ++ [evLogErrorCollectingMetrics e])
      | (ch'', None) => mkCollected c' ch'' (refreshEvents c w)
      end
    else mkCollected c' ch' (refreshEvents c w).
Proof.
  unfold Collect, refreshed, refreshEvents, fresh, stale.
  destruct (_ >? _); [|reflexivity].
  destruct (readData c (session w) (atRead w)) as [[data|e] evs]; reflexivity.
Qed.

Lemma after_Collect (c : flowercareCollector) (w : scrape) (ch : chan Metric) :
  after (Collect c w ch) = refreshed c w.
Proof.
  rewrite Collect_unfold. cbv zeta.
  destruct (fresh _ _); [|reflexivity].
  destruct (collectData _ _ _) as [ch' [e|]]; reflexivity.
Qed.

Lemma sent_Collect (c : flowercareCollector) (w : scrape) (ch : chan Metric) :
  sent (Collect c w ch) =
    ch ++ Gauge_Collect (upMetric (refreshed c w))
       :: Counter_Collect (scrapeErrorsMetric (refreshed c w))
       :: sensorPart (refreshed c w) w.
Proof.
  rewrite Collect_unfold. cbv zeta. unfold sensorPart, send.
  destruct (fresh _ _).
  - pose proof (sendAll_sent _ (sensorMetrics_gauges (refreshed c w) (cache (refreshed c w)))) as Hs.
    rewrite collectData_sendAll.
    match goal with
    | |- context [sendAll ?ch0 ?ms] =>
        specialize (Hs ch0); destruct (sendAll ch0 ms) as [ch' [e|]]
    end; simpl in *; subst ch'; now rewrite <- !app_assoc.
  - simpl. now rewrite <- app_assoc.
Qed.

Lemma events_Collect (c : flowercareCollector) (w : scrape) (ch : chan Metric) :
  events (Collect c w ch) =
    refreshEvents c w ++
    (if fresh (refreshed c w) w then
       match snd (collectData (refreshed c w) [] (cache (refreshed c w))) with
       | Some e => [evLogErrorCollectingMetrics e]
       | None => []
       end
     else []).
Proof.
  rewrite Collect_unfold. cbv zeta.
  destruct (fresh _ _); [|now rewrite app_nil_r].
  rewrite !collectData_sendAll.
  pose proof (sendAll_error _ (sensorMetrics_gauges (refreshed c w) (cache (refreshed c w)))) as He.
  match goal with
  | |- context [sendAll (send ?a ?b) ?ms] =>
      rewrite (surjective_pairing (sendAll (send a b) ms)), (He (send a b)), (He [])
  end.
  destruct (nth_error _ _) as [m|]; [|now rewrite app_nil_r].
  destruct (constructionError m); [reflexivity|now rewrite app_nil_r].
Qed.

(** The refresh changes nothing of the collector but the cache, the gauge
    and the counter. *)
Lemma refreshed_config (c : flowercareCollector) (w : scrape) :
  CacheDuration (refreshed c w) = CacheDuration c
  /\ scrapeTimestampDesc (refreshed c w) = scrapeTimestampDesc c
  /\ infoDesc (refreshed c w) = infoDesc c
  /\ batteryDesc (refreshed c w) = batteryDesc c
  /\ conductivityDesc (refreshed c w) = conductivityDesc c
  /\ lightDesc (refreshed c w) = lightDesc c
  /\ moistureDesc (refreshed c w) = moistureDesc c
  /\ temperatureDesc (refreshed c w) = temperatureDesc c.
Proof.
  unfold refreshed. destruct (stale c w); [|repeat split].
  destruct (fst _); repeat split.
Qed.

Lemma refreshed_not_stale (c : flowercareCollector) (w : scrape) :
  stale c w = false -> refreshed c w = c.
Proof. unfold refreshed. now intros ->. Qed.

Lemma readData_calls (c : flowercareCollector) (f : Miflora) (now : time.Time) :
  existsb isDeviceCall (snd (readData c f now)) = true
  /\ existsb isScrapeError (snd (readData c f now)) = false.
Proof.
  unfold readData. destruct (ReadFirmware f); [destruct (ReadSensors f)|]; now split.
Qed.

Lemma refreshAttempted_stale (c : flowercareCollector) (w : scrape) (ch : chan Metric) :
  refreshAttempted (Collect c w ch) = stale c w.
Proof.
  unfold refreshAttempted. rewrite events_Collect, existsb_app.
  replace (existsb isDeviceCall (if fresh _ _ then _ else _)) with false
    by (destruct (fresh _ _); [destruct (snd _)|]; reflexivity).
  rewrite orb_false_r. unfold refreshEvents.
  destruct (stale c w); [|reflexivity].
  destruct (readData_calls c (session w) (atRead w)) as [Hd _].
  destruct (readData c (session w) (atRead w)) as [[data|e] evs]; simpl in *;
    [assumption|].
  rewrite existsb_app, Hd. reflexivity.
Qed.

Lemma refreshFailed_iff (c : flowercareCollector) (w : scrape) (ch : chan Metric) :
  refreshFailed (Collect c w ch) =
    stale c w &&
    match fst (readData c (session w) (atRead w)) with
    | Err _ => true
    | Ok _ => false
    end.
Proof.
  unfold refreshFailed. rewrite events_Collect, existsb_app.
  replace (existsb isScrapeError (if fresh _ _ then _ else _)) with false
    by (destruct (fresh _ _); [destruct (snd _)|]; reflexivity).
  rewrite orb_false_r. unfold refreshEvents.
  destruct (stale c w); [|reflexivity].
  destruct (readData_calls c (session w) (atRead w)) as [_ Hs].
  destruct (readData c (session w) (atRead w)) as [[data|e] evs]; simpl in *;
    [assumption|].
  rewrite existsb_app, Hs. reflexivity.
Qed.

(** ** The emission step, in order *)

Lemma collectData_result (c : flowercareCollector) (ch : chan Metric) (data : sensorData) :
  collectData c ch data =
    (ch ++ firstn (firstFailure (sensorMetrics c data)) (sensorMetrics c data),
     match nth_error (sensorMetrics c data) (firstFailure (sensorMetrics c data)) with
     | None => None
     | Some m =>
         match constructionError m with
         | Some e => Some (errCanNotCreateMetric (fqName (desc m)) e)
         | None => None
         end
     end).
Proof.
  rewrite collectData_sendAll, (surjective_pairing (sendAll _ _)).
  now rewrite sendAll_sent, sendAll_error by apply sensorMetrics_gauges.
Qed.

(** The names under which a new collector sends its sensor metrics. *)
Lemma sensorMetrics_names (mac device : string) (d : time.Duration) (data : sensorData) :
  map (fun m => fqName (desc m)) (sensorMetrics (newCollector mac device d) data) =
    [ "flowercare_scrape_timestamp"; "flowercare_info"; "flowercare_battery_percent";
      "flowercare_conductivity_sm"; "flowercare_brightness_lux";
      "flowercare_moisture_percent"; "flowercare_temperature_celsius" ]%string.
Proof. reflexivity. Qed.

(** C2: [collectData] sends the freshness timestamp, the info metric and
    then the gauges of battery, conductivity, light, moisture and
    temperature, in this order.  When all can be constructed, all seven are
    sent and no error is returned.  When the metric at position [k] is the
    first that cannot be constructed, the metrics before it are sent, it
    and the ones after it are not, and its error is returned to the caller.
    In both cases what was on the channel before is still there, and the
    liveness gauge and the error counter that [Collect] sends first are
    those of the collector as the refresh left it. *)
Theorem collectData_in_order (c : flowercareCollector) (ch : chan Metric)
  (data : sensorData) :
  map desc (sensorMetrics c data) =
    [ scrapeTimestampDesc c; infoDesc c; batteryDesc c; conductivityDesc c;
      lightDesc c; moistureDesc c; temperatureDesc c ]
  /\ ((forall m, In m (sensorMetrics c data) -> constructionError m = None) ->
      collectData c ch data = (ch ++ sensorMetrics c data, None))
  /\ (forall (k : nat) (m : Metric) (e : error),
        (forall j m', (j < k)%nat -> nth_error (sensorMetrics c data) j = Some m' ->
                      constructionError m' = None) ->
        nth_error (sensorMetrics c data) k = Some m ->
        constructionError m = Some e ->
        collectData c ch data =
          (ch ++ firstn k (sensorMetrics c data),
           Some (errCanNotCreateMetric (fqName (desc m)) e)))
  /\ (forall (w : scrape) (ch0 : chan Metric),
        after (Collect c w ch0) = refreshed c w
        /\ exists k : nat,
             sent (Collect c w ch0) =
               ch0 ++ Gauge_Collect (upMetric (refreshed c w))
                   :: Counter_Collect (scrapeErrorsMetric (refreshed c w))
                   :: firstn k (sensorMetrics (refreshed c w) (cache (refreshed c w)))).
Proof.
  split; [reflexivity|]. split; [|split].
  - intros Hall. rewrite collectData_result, (firstFailure_none _ Hall).
    rewrite firstn_all. now rewrite (proj2 (nth_error_None _ _) (Nat.le_refl _)).
  - intros k m e Hbefore Hk He.
    rewrite collectData_result, (firstFailure_at _ k m e Hbefore Hk He), Hk, He.
    reflexivity.
  - intros w ch0. split; [apply after_Collect|].
    rewrite sent_Collect. unfold sensorPart.
    destruct (fresh _ _).
    + now exists (firstFailure (sensorMetrics (refreshed c w) (cache (refreshed c w)))).
    + now exists O.
Qed.

Lemma collectData_in_order_witness :
  collectData exampleCollector [] garbledData =
    ([ mkMetric (scrapeTimestampDesc exampleCollector) GaugeValue 0%float [] ],
     Some (errCanNotCreateMetric "flowercare_info" (errInvalidUTF8 garbledVersion)))
  /\ collectData exampleCollector [] exampleData =
       (sensorMetrics exampleCollector exampleData, None).
Proof.
  split.
  - refine (proj1 (proj2 (proj2 (collectData_in_order exampleCollector [] garbledData)))
              1%nat
              (mkMetric (infoDesc exampleCollector) GaugeValue 1%float [garbledVersion])
              (errInvalidUTF8 garbledVersion) _ _ _).
    + intros [|j] m' Hj Hm'; [|lia].
      injection Hm' as <-. reflexivity.
    + reflexivity.
    + reflexivity.
  - apply (proj1 (proj2 (collectData_in_order exampleCollector [] exampleData))).
    intros m Hm. simpl in Hm.
    repeat (destruct Hm as [<-|Hm]; [reflexivity|]).
    contradiction.
Defined.

(** With a firmware version that is not valid UTF-8 the info metric is the
    only one that cannot be constructed, and the five gauges after it are
    not sent.  The same happens when the info descriptor and the label
    values do not match. *)
Lemma garbled_version_stops_emission :
  map constructionError (sensorMetrics exampleCollector garbledData) =
    [None; Some (errInvalidUTF8 garbledVersion); None; None; None; None; None]
  /\ ~ othersStillEmitted exampleCollector garbledData
  /\ map constructionError (sensorMetrics mislabelledCollector exampleData) =
       [None; Some (errInconsistentCardinality 0 1); None; None; None; None; None]
  /\ ~ othersStillEmitted mislabelledCollector exampleData.
Proof.
  split; [reflexivity|]. split; [|split; [reflexivity|]].
  - intros H.
    specialize (H (mkMetric (batteryDesc exampleCollector) GaugeValue 80%float [])).
    assert (Hin : In (mkMetric (batteryDesc exampleCollector) GaugeValue 80%float [])
                     (fst (collectData exampleCollector [] garbledData))).
    { apply H; [|reflexivity]. right. right. left. reflexivity. }
    vm_compute in Hin.
    destruct Hin as [Heq|[]].
    apply (f_equal (fun m => fqName (desc m))) in Heq.
    discriminate Heq.
  - intros H.
    specialize (H (mkMetric (batteryDesc mislabelledCollector) GaugeValue 80%float [])).
    assert (Hin : In (mkMetric (batteryDesc mislabelledCollector) GaugeValue 80%float [])
                     (fst (collectData mislabelledCollector [] exampleData))).
    { apply H; [|reflexivity]. right. right. left. reflexivity. }
    vm_compute in Hin.
    destruct Hin as [Heq|[]].
    apply (f_equal (fun m => fqName (desc m))) in Heq.
    discriminate Heq.
Qed.

(** C1, as the code has it: when the sensor metric at position [k] is the
    first that cannot be constructed in a call of [Collect], the liveness
    gauge, the error counter and the sensor metrics before position [k] are
    sent, the metric at [k] and the ones after it are not, the error is
    logged, and the collector is as the refresh left it. *)
Theorem emission_failure_keeps_earlier_metrics (c : flowercareCollector) (w : scrape)
  (ch : chan Metric) (k : nat) (m : Metric) (e : error) :
  fresh (refreshed c w) w = true ->
  (forall j m', (j < k)%nat ->
     nth_error (sensorMetrics (refreshed c w) (cache (refreshed c w))) j = Some m' ->
     constructionError m' = None) ->
  nth_error (sensorMetrics (refreshed c w) (cache (refreshed c w))) k = Some m ->
  constructionError m = Some e ->
  sent (Collect c w ch) =
    ch ++ Gauge_Collect (upMetric (refreshed c w))
       :: Counter_Collect (scrapeErrorsMetric (refreshed c w))
       :: firstn k (sensorMetrics (refreshed c w) (cache (refreshed c w)))
  /\ after (Collect c w ch) = refreshed c w
  /\ events (Collect c w ch) =
       refreshEvents c w
       ++ [evLogErrorCollectingMetrics (errCanNotCreateMetric (fqName (desc m)) e)].
Proof.
  intros Hfresh Hbefore Hk He.
  pose proof (firstFailure_at _ k m e Hbefore Hk He) as Hff.
  split; [|split].
  - rewrite sent_Collect. unfold sensorPart. now rewrite Hfresh, Hff.
  - apply after_Collect.
  - rewrite events_Collect, Hfresh, collectData_result. cbn [snd].
    now rewrite Hff, Hk, He.
Qed.

Lemma emission_failure_keeps_earlier_metrics_witness :
  map (fun m => (fqName (desc m), value m))
    (sent (Collect exampleCollector (mkScrape someDay garbledSession someDay someDay) [])) =
    [ ("flowercare_up"%string, 1%float);
      ("flowercare_scrape_errors_total"%string, 0%float);
      ("flowercare_scrape_timestamp"%string, 1793318400%float) ].
Proof.
  destruct (emission_failure_keeps_earlier_metrics exampleCollector
              (mkScrape someDay garbledSession someDay someDay) [] 1%nat
              (mkMetric (infoDesc exampleCollector) GaugeValue 1%float [garbledVersion])
              (errInvalidUTF8 garbledVersion)) as [Hsent _].
  - reflexivity.
  - intros [|j] m' Hj Hm'; [|lia].
    injection Hm' as <-. reflexivity.
  - reflexivity.
  - reflexivity.
  - rewrite Hsent. reflexivity.
Defined.

(** ** The refresh *)

Lemma readData_Ok (c : flowercareCollector) (f : Miflora) (now : time.Time)
  (data : sensorData) :
  fst (readData c f now) = Ok data ->
  exists firmware sensors,
    ReadFirmware f = Ok firmware /\ ReadSensors f = Ok sensors
    /\ data = mkSensorData now firmware sensors.
Proof.
  unfold readData.
  destruct (ReadFirmware f) as [fw|e]; [|discriminate].
  destruct (ReadSensors f) as [sn|e]; [|discriminate].
  simpl. intros [= <-]. now exists fw, sn.
Qed.

Lemma readData_sessionFails (c : flowercareCollector) (f : Miflora) (now : time.Time) :
  match fst (readData c f now) with
  | Err _ => sessionFails f = true
  | Ok _ => sessionFails f = false
  end.
Proof.
  unfold readData, sessionFails.
  destruct (ReadFirmware f); [destruct (ReadSensors f)|]; reflexivity.
Qed.

Lemma stale_iff (c : flowercareCollector) (w : scrape) :
  stale c w = true <-> CacheDuration c < time.Since (atCheck w) (Time (cache c)).
Proof. unfold stale. rewrite Z.gtb_ltb. apply Z.ltb_lt. Qed.

(** C3: take a call of [Collect] that finds the cache older than
    [CacheDuration].  When the device does not answer one of the two reads,
    the cache is what it was before the call, the error counter is one
    higher, the liveness gauge is 0, the error is logged, and the call
    returns with the liveness gauge and the error counter on the channel.
    When the device answers both, the cache is the reading just taken,
    stamped with the clock of [readData], the liveness gauge is 1, the
    counter is what it was and no error is logged. *)
Theorem refresh_outcome (c : flowercareCollector) (w : scrape) (ch : chan Metric) :
  CacheDuration c < time.Since (atCheck w) (Time (cache c)) ->
  (sessionFails (session w) = true ->
     cache (after (Collect c w ch)) = cache c
     /\ counterValue (scrapeErrorsMetric (after (Collect c w ch))) =
          counterValue (scrapeErrorsMetric c) + 1
     /\ gaugeValue (upMetric (after (Collect c w ch))) = 0%float
     /\ (exists e, fst (readData c (session w) (atRead w)) = Err e
                   /\ In (evLogErrorDuringScrape e) (events (Collect c w ch)))
     /\ sent (Collect c w ch) =
          ch ++ mkMetric (gaugeDesc (upMetric c)) GaugeValue 0%float []
             :: mkMetric (counterDesc (scrapeErrorsMetric c)) CounterValue
                  (float64_of_Z (counterValue (scrapeErrorsMetric c) + 1)) []
             :: sensorPart (after (Collect c w ch)) w)
  /\ (forall firmware sensors,
        ReadFirmware (session w) = Ok firmware ->
        ReadSensors (session w) = Ok sensors ->
        cache (after (Collect c w ch)) = mkSensorData (atRead w) firmware sensors
        /\ gaugeValue (upMetric (after (Collect c w ch))) = 1%float
        /\ counterValue (scrapeErrorsMetric (after (Collect c w ch))) =
             counterValue (scrapeErrorsMetric c)
        /\ refreshFailed (Collect c w ch) = false).
Proof.
  intros Hstale. apply stale_iff in Hstale.
  rewrite refreshFailed_iff, sent_Collect, events_Collect, !after_Collect.
  unfold refreshed, refreshEvents. rewrite Hstale.
  pose proof (readData_sessionFails c (session w) (atRead w)) as Hfails.
  split.
  - intros Hf.
    destruct (readData c (session w) (atRead w)) as [[data|e] evs] eqn:E;
      cbn [fst] in *; [congruence|].
    repeat split.
    exists e. split; [reflexivity|].
    apply in_or_app. left. apply in_or_app. right. now left.
  - intros fw sn Hfw Hsn. unfold readData. rewrite Hfw, Hsn. now repeat split.
Qed.

Lemma refresh_outcome_witness :
  cache (after (Collect cachedCollector
                  (mkScrape (someDay + 3 * time.Minute) failingSession
                     (someDay + 3 * time.Minute) (someDay + 3 * time.Minute)) [])) =
    mkSensorData someDay (mkFirmware "1.2" 80) (mkSensors 22.5%float 30 1200 350)
  /\ counterValue (scrapeErrorsMetric
       (after (Collect cachedCollector
                 (mkScrape (someDay + 3 * time.Minute) failingSession
                    (someDay + 3 * time.Minute) (someDay + 3 * time.Minute)) []))) = 1
  /\ cache (after (Collect exampleCollector
                     (mkScrape someDay exampleSession someDay someDay) [])) =
       mkSensorData someDay (mkFirmware "1.2" 80) (mkSensors 22.5%float 30 1200 350).
Proof.
  split; [|split].
  - destruct (refresh_outcome cachedCollector
                (mkScrape (someDay + 3 * time.Minute) failingSession
                   (someDay + 3 * time.Minute) (someDay + 3 * time.Minute)) [])
      as [Hfail _]; [reflexivity|].
    destruct Hfail as [Hcache _]; [reflexivity|].
    rewrite Hcache. reflexivity.
  - destruct (refresh_outcome cachedCollector
                (mkScrape (someDay + 3 * time.Minute) failingSession
                   (someDay + 3 * time.Minute) (someDay + 3 * time.Minute)) [])
      as [Hfail _]; [reflexivity|].
    destruct Hfail as (_ & Hcount & _); [reflexivity|].
    rewrite Hcount. reflexivity.
  - destruct (refresh_outcome exampleCollector
                (mkScrape someDay exampleSession someDay someDay) [])
      as [_ Hok]; [reflexivity|].
    destruct (Hok (mkFirmware "1.2" 80) (mkSensors 22.5%float 30 1200 350)
                eq_refl eq_refl) as [Hcache _].
    exact Hcache.
Defined.

(** ** When a refresh is attempted *)

Lemma Since_exact (now t : time.Time) (d : time.Duration) :
  time.is_Duration d -> d < time.maxDuration ->
  (d < time.Since now t <-> d < now - t).
Proof.
  unfold time.is_Duration, time.Since, time.Sub. intros Hd Hmax.
  destruct (Z.ltb_spec (now - t) time.minDuration);
    [|destruct (Z.ltb_spec time.maxDuration (now - t))]; lia.
Qed.

Lemma Since_zeroTime (now : time.Time) :
  sinceEpoch now -> time.Since now time.zeroTime = time.maxDuration.
Proof.
  unfold sinceEpoch, time.Since, time.Sub. intros Hnow.
  assert (Hz : time.zeroTime = -62135596800000000000) by reflexivity.
  assert (Hm : time.maxDuration = 9223372036854775807) by reflexivity.
  assert (Hn : time.minDuration = -9223372036854775808) by reflexivity.
  rewrite Hz, Hm, Hn.
  destruct (Z.ltb_spec (now - -62135596800000000000) (-9223372036854775808)); [lia|].
  destruct (Z.ltb_spec 9223372036854775807 (now - -62135596800000000000)); lia.
Qed.

(** With the largest cache duration that can be configured, the first
    scrape does not attempt a refresh. *)
Lemma first_scrape_can_skip_refresh :
  0 < time.maxDuration
  /\ time.is_Duration time.maxDuration
  /\ ~ firstScrapeRefreshes time.maxDuration.
Proof.
  split; [reflexivity|]. split; [split; discriminate|].
  intros H.
  specialize (H "C4:7C:8D:6A:5B:4E"%string "hci0"%string
                (mkScrape someDay exampleSession someDay someDay) []).
  assert (Hepoch : sinceEpoch someDay) by (unfold sinceEpoch; discriminate).
  specialize (H Hepoch).
  vm_compute in H. discriminate H.
Qed.

(** C4, as the code has it: a call of [Collect] attempts a refresh exactly
    when [time.Since] of the cached time exceeds [CacheDuration]; for a
    cache duration below the largest [Duration] that is exactly when the
    clock minus the cached time exceeds it; and for such a cache duration
    the first scrape of a new collector always attempts a refresh. *)
Theorem refresh_attempted_iff_stale :
  (forall (c : flowercareCollector) (w : scrape) (ch : chan Metric),
     refreshAttempted (Collect c w ch) = true <->
     CacheDuration c < time.Since (atCheck w) (Time (cache c)))
  /\ (forall (c : flowercareCollector) (w : scrape) (ch : chan Metric),
        time.is_Duration (CacheDuration c) ->
        CacheDuration c < time.maxDuration ->
        (refreshAttempted (Collect c w ch) = true <->
         CacheDuration c < atCheck w - Time (cache c)))
  /\ (forall (mac device : string) (d : time.Duration) (w : scrape) (ch : chan Metric),
        time.is_Duration d ->
        d < time.maxDuration ->
        sinceEpoch (atCheck w) ->
        refreshAttempted (Collect (newCollector mac device d) w ch) = true).
Proof.
  assert (Hstale : forall c w ch,
            refreshAttempted (Collect c w ch) = true <->
            CacheDuration c < time.Since (atCheck w) (Time (cache c))).
  { intros c w ch. rewrite refreshAttempted_stale. unfold stale.
    rewrite Z.gtb_ltb. apply Z.ltb_lt. }
  split; [exact Hstale|]. split.
  - intros c w ch Hd Hmax. rewrite Hstale. now apply Since_exact.
  - intros mac device d w ch Hd Hmax Hepoch. apply Hstale.
    cbn [newCollector cache CacheDuration zeroSensorData Time].
    now rewrite Since_zeroTime.
Qed.

Lemma refresh_attempted_iff_stale_witness :
  refreshAttempted (Collect exampleCollector
                      (mkScrape someDay exampleSession someDay someDay) []) = true
  /\ (refreshAttempted (Collect exampleCollector
                          (mkScrape someDay exampleSession someDay someDay) []) = true <->
      CacheDuration exampleCollector < someDay - Time (cache exampleCollector)).
Proof.
  split.
  - apply (proj2 (proj2 refresh_attempted_iff_stale)
             "C4:7C:8D:6A:5B:4E"%string "hci0"%string (2 * time.Minute)
             (mkScrape someDay exampleSession someDay someDay) []).
    + split; discriminate.
    + reflexivity.
    + unfold sinceEpoch. discriminate.
  - apply (proj1 (proj2 refresh_attempted_iff_stale) exampleCollector
             (mkScrape someDay exampleSession someDay someDay) []).
    + split; discriminate.
    + reflexivity.
Defined.

(** ** What a scrape sends *)

Lemma sent_prefix (c : flowercareCollector) (w : scrape) (ch : chan Metric) :
  firstn (List.length ch + 2) (sent (Collect c w ch)) =
    ch ++ [ Gauge_Collect (upMetric (refreshed c w));
            Counter_Collect (scrapeErrorsMetric (refreshed c w)) ].
Proof.
  rewrite sent_Collect, firstn_app.
  replace (List.length ch + 2 - List.length ch)%nat with 2%nat by lia.
  rewrite firstn_all2 by lia. reflexivity.
Qed.

Lemma sent_sensors (c : flowercareCollector) (w : scrape) (ch : chan Metric) :
  skipn (List.length ch + 2) (sent (Collect c w ch)) = sensorPart (refreshed c w) w.
Proof.
  rewrite sent_Collect, skipn_app.
  replace (List.length ch + 2 - List.length ch)%nat with 2%nat by lia.
  rewrite skipn_all2 by lia. reflexivity.
Qed.

Lemma sensorPart_fresh (c : flowercareCollector) (w : scrape) :
  sensorPart c w <> [] -> fresh c w = true.
Proof. unfold sensorPart. destruct (fresh c w); [reflexivity|congruence]. Qed.

Lemma fresh_exact (c : flowercareCollector) (w : scrape) :
  time.is_Duration (CacheDuration c) ->
  fresh c w = true ->
  time.Since (atEmit w) (Time (cache c)) < CacheDuration c
  /\ atEmit w - Time (cache c) < CacheDuration c.
Proof.
  unfold fresh, time.is_Duration, time.Since, time.Sub. intros Hd Hf.
  apply Z.ltb_lt in Hf. split; [exact Hf|]. revert Hf.
  destruct (Z.ltb_spec (atEmit w - Time (cache c)) time.minDuration);
    [|destruct (Z.ltb_spec time.maxDuration (atEmit w - Time (cache c)))]; lia.
Qed.

(** C5: in what a call of [Collect] sends after the liveness gauge and the
    error counter, the first metric, if there is one, is the freshness
    timestamp and its value is the cached time in whole seconds of Unix
    time; metrics are sent there only when a reading is in the cache and
    the clock minus the cached time is below [CacheDuration], and they are
    a prefix of the sensor metrics of the cached reading; otherwise the
    liveness gauge and the error counter are all that is sent. *)
Theorem sensor_metrics_only_when_fresh (c : flowercareCollector) (w : scrape)
  (ch : chan Metric) :
  time.is_Duration (CacheDuration c) ->
  sinceEpoch (atEmit w) ->
  let r := Collect c w ch in
  let sensors := skipn (List.length ch + 2) (sent r) in
  firstn (List.length ch + 2) (sent r) =
    ch ++ [Gauge_Collect (upMetric (after r)); Counter_Collect (scrapeErrorsMetric (after r))]
  /\ (exists k : nat, sensors = firstn k (sensorMetrics (after r) (cache (after r))))
  /\ (forall m rest, sensors = m :: rest ->
        desc m = scrapeTimestampDesc c
        /\ value m = float64_of_Z (Time (cache (after r)) / 1000000000))
  /\ (sensors <> [] ->
        readingPresent (after r)
        /\ atEmit w - Time (cache (after r)) < CacheDuration c)
  /\ (~ (readingPresent (after r)
         /\ atEmit w - Time (cache (after r)) < CacheDuration c) ->
        sent r =
          ch ++ [Gauge_Collect (upMetric (after r));
                 Counter_Collect (scrapeErrorsMetric (after r))]).
Proof.
  intros Hd Hepoch r sensors. subst r sensors.
  rewrite sent_prefix, sent_sensors, !after_Collect.
  destruct (refreshed_config c w) as (HD & Hts & _).
  assert (Hpresent : sensorPart (refreshed c w) w <> [] ->
            readingPresent (refreshed c w)
            /\ atEmit w - Time (cache (refreshed c w)) < CacheDuration c).
  { intros Hne. apply sensorPart_fresh in Hne.
    apply fresh_exact in Hne; [|now rewrite HD].
    rewrite HD in Hne. destruct Hne as [Hsince Hage]. split; [|exact Hage].
    unfold readingPresent. intros Hzero. rewrite Hzero, Since_zeroTime in Hsince
      by assumption.
    unfold time.is_Duration in Hd. lia. }
  split; [reflexivity|]. split; [|split; [|split]].
  - unfold sensorPart. destruct (fresh _ _); [eexists; reflexivity|now exists O].
  - intros m rest Hm. unfold sensorPart in Hm.
    destruct (fresh _ _); [|discriminate].
    destruct (firstFailure _) as [|k]; [discriminate|].
    cbn [sensorMetrics firstn] in Hm. injection Hm as <- _.
    cbn [desc value]. now rewrite Hts.
  - exact Hpresent.
  - intros Hnot. rewrite sent_Collect.
    destruct (sensorPart (refreshed c w) w) eqn:E; [reflexivity|].
    exfalso. apply Hnot. apply Hpresent. discriminate.
Qed.

Lemma sensor_metrics_only_when_fresh_witness :
  (readingPresent (after (Collect exampleCollector
                            (mkScrape someDay exampleSession someDay
                               (someDay + 10 * time.Second)) []))
   /\ someDay + 10 * time.Second
        - Time (cache (after (Collect exampleCollector
                                (mkScrape someDay exampleSession someDay
                                   (someDay + 10 * time.Second)) [])))
      < CacheDuration exampleCollector)
  /\ (forall m rest,
        skipn 2 (sent (Collect exampleCollector
                         (mkScrape someDay exampleSession someDay
                            (someDay + 10 * time.Second)) [])) = m :: rest ->
        value m = 1793318400%float)
  /\ List.length (sent (Collect exampleCollector
                          (mkScrape someDay failingSession someDay someDay) [])) = 2%nat.
Proof.
  assert (Hd : time.is_Duration (CacheDuration exampleCollector))
    by (split; discriminate).
  assert (He : sinceEpoch (someDay + 10 * time.Second))
    by (unfold sinceEpoch; discriminate).
  assert (He' : sinceEpoch someDay) by (unfold sinceEpoch; discriminate).
  pose proof (sensor_metrics_only_when_fresh exampleCollector
                (mkScrape someDay exampleSession someDay (someDay + 10 * time.Second))
                [] Hd He) as H.
  pose proof (sensor_metrics_only_when_fresh exampleCollector
                (mkScrape someDay failingSession someDay someDay)
                [] Hd He') as H'.
  cbv zeta in H, H'.
  destruct H as (_ & _ & Hts & Hfresh & _). destruct H' as (_ & _ & _ & _ & Hnone).
  split; [|split].
  - apply Hfresh. intros E. vm_compute in E. discriminate E.
  - intros m rest Hm. destruct (Hts m rest Hm) as [_ ->]. reflexivity.
  - rewrite Hnone; [reflexivity|].
    intros [Hp _]. apply Hp. reflexivity.
Defined.

(** ** The conductivity *)

Lemma nth_error_prefix {A : Type} (k i : nat) (l : list A) (x : A) :
  nth_error (firstn k l) i = Some x -> nth_error l i = Some x.
Proof.
  rewrite nth_error_firstn. destruct (Nat.ltb i k); [trivial|discriminate].
Qed.

Lemma collectData_nth (c : flowercareCollector) (ch : chan Metric) (data : sensorData)
  (i : nat) (m : Metric) :
  nth_error (fst (collectData c ch data)) (List.length ch + i) = Some m ->
  nth_error (sensorMetrics c data) i = Some m.
Proof.
  rewrite collectData_result. cbn [fst].
  rewrite nth_error_app2 by lia.
  replace (List.length ch + i - List.length ch)%nat with i by lia.
  apply nth_error_prefix.
Qed.

Lemma Collect_nth (c : flowercareCollector) (w : scrape) (ch : chan Metric)
  (i : nat) (m : Metric) :
  nth_error (sent (Collect c w ch)) (List.length ch + 2 + i) = Some m ->
  nth_error (sensorMetrics (refreshed c w) (cache (refreshed c w))) i = Some m.
Proof.
  rewrite sent_Collect, nth_error_app2 by lia.
  replace (List.length ch + 2 + i - List.length ch)%nat with (S (S i)) by lia.
  cbn [nth_error]. unfold sensorPart.
  destruct (fresh _ _); [apply nth_error_prefix|].
  destruct i; discriminate.
Qed.

(** The scale factor at work: no conductivity gives 0, the example of the
    specification gives the binary64 number nearest to 0.035, and the
    largest value a [uint16] holds gives the one printed 6.5535000000000005. *)
Lemma conductivity_examples :
  (float64_of_Z 0 * factorConductivity)%float = 0%float
  /\ (float64_of_Z 350 * factorConductivity)%float = 0.035%float
  /\ (float64_of_Z 65535 * factorConductivity)%float = 6.5535000000000005%float.
Proof. repeat split; vm_compute; reflexivity. Qed.

(** C6: the conductivity metric that [collectData] sends, and so the one a
    call of [Collect] sends after the liveness gauge, the error counter, the
    timestamp, the info metric and the battery, has for value the
    binary64 product of the conductivity [V] of the reading, converted to
    [float64], and the constant 0.0001; and it is sent whenever no sensor
    metric fails to be constructed. *)
Theorem conductivity_is_scaled (c : flowercareCollector) :
  (forall (ch : chan Metric) (data : sensorData) (m : Metric),
     nth_error (fst (collectData c ch data)) (List.length ch + 3) = Some m ->
     desc m = conductivityDesc c
     /\ value m = (float64_of_Z (Conductivity (Sensors data)) * 0.0001)%float)
  /\ (forall (w : scrape) (ch : chan Metric) (m : Metric),
        nth_error (sent (Collect c w ch)) (List.length ch + 2 + 3) = Some m ->
        desc m = conductivityDesc c
        /\ value m =
             (float64_of_Z (Conductivity (Sensors (cache (after (Collect c w ch)))))
              * 0.0001)%float)
  /\ (forall (ch : chan Metric) (data : sensorData),
        (forall m, In m (sensorMetrics c data) -> constructionError m = None) ->
        nth_error (fst (collectData c ch data)) (List.length ch + 3) =
          Some (mkMetric (conductivityDesc c) GaugeValue
                  (float64_of_Z (Conductivity (Sensors data)) * 0.0001)%float [])).
Proof.
  split; [|split].
  - intros ch data m Hm. apply collectData_nth in Hm.
    injection Hm as <-. split; reflexivity.
  - intros w ch m Hm. apply Collect_nth in Hm. rewrite after_Collect.
    injection Hm as <-. split; [|reflexivity].
    cbn [desc]. apply (refreshed_config c w).
  - intros ch data Hall.
    rewrite collectData_result, (firstFailure_none _ Hall), firstn_all. cbn [fst].
    rewrite nth_error_app2 by lia.
    replace (List.length ch + 3 - List.length ch)%nat with 3%nat by lia.
    reflexivity.
Qed.

Lemma conductivity_is_scaled_witness :
  nth_error (fst (collectData exampleCollector [] exampleData)) 3 =
    Some (mkMetric (conductivityDesc exampleCollector) GaugeValue 0.035%float [])
  /\ (forall m,
        nth_error (sent (Collect cachedCollector
                           (mkScrape (someDay + 10 * time.Second) failingSession 0
                              (someDay + 10 * time.Second)) [])) 5 = Some m ->
        value m = 0.035%float)
  /\ (forall m,
        nth_error (fst (collectData exampleCollector [] exampleData)) 3 = Some m ->
        value m = 0.035%float).
Proof.
  destruct (conductivity_is_scaled exampleCollector) as (Hdata & _ & Hall).
  destruct (conductivity_is_scaled cachedCollector) as (_ & Hscrape & _).
  split; [|split].
  - apply (Hall [] exampleData).
    intros m Hm. simpl in Hm.
    repeat (destruct Hm as [<-|Hm]; [reflexivity|]).
    contradiction.
  - intros m Hm. destruct (Hscrape _ [] m Hm) as [_ ->]. reflexivity.
  - intros m Hm. destruct (Hdata [] exampleData m Hm) as [_ ->]. reflexivity.
Defined.

(** ** The error counter over a sequence of scrapes *)

Lemma errors_after_Collect (c : flowercareCollector) (w : scrape) (ch : chan Metric) :
  counterValue (scrapeErrorsMetric (after (Collect c w ch))) =
    counterValue (scrapeErrorsMetric c)
    + (if stale c w && sessionFails (session w) then 1 else 0).
Proof.
  rewrite after_Collect. unfold refreshed.
  pose proof (readData_sessionFails c (session w) (atRead w)) as Hf.
  destruct (stale c w); simpl; [|lia].
  destruct (fst (readData c (session w) (atRead w))); rewrite Hf; simpl; lia.
Qed.

Lemma scrapes_app (ws1 ws2 : list scrape) (c : flowercareCollector) :
  scrapes c (ws1 ++ ws2) = scrapes (scrapes c ws1) ws2.
Proof.
  revert c. induction ws1 as [|w rest IH]; intros c; simpl; [reflexivity|apply IH].
Qed.

Lemma failedRefreshes_nonneg (ws : list scrape) (c : flowercareCollector) :
  0 <= failedRefreshes c ws.
Proof.
  revert c. induction ws as [|w rest IH]; intros c; simpl; [lia|].
  specialize (IH (after (Collect c w []))).
  destruct (stale c w && sessionFails (session w)); lia.
Qed.

Lemma errors_after_scrapes (ws : list scrape) (c : flowercareCollector) :
  counterValue (scrapeErrorsMetric (scrapes c ws)) =
    counterValue (scrapeErrorsMetric c) + failedRefreshes c ws.
Proof.
  revert c. induction ws as [|w rest IH]; intros c; simpl; [lia|].
  rewrite IH, errors_after_Collect. lia.
Qed.

(** C7: a call of [Collect] that finds the cache older than
    [CacheDuration] and the device not answering adds one to the error
    counter, and every other call leaves the counter as it is; so after a
    sequence of scrapes the counter has grown by the number of such calls
    among them, and it never goes down as the sequence is continued.  The
    counter metric a call sends carries the count after the call. *)
Theorem scrape_errors_monotone :
  (forall (c : flowercareCollector) (w : scrape) (ch : chan Metric),
     (CacheDuration c < time.Since (atCheck w) (Time (cache c)) ->
      sessionFails (session w) = true ->
      counterValue (scrapeErrorsMetric (after (Collect c w ch))) =
        counterValue (scrapeErrorsMetric c) + 1)
     /\ (time.Since (atCheck w) (Time (cache c)) <= CacheDuration c
         \/ sessionFails (session w) = false ->
         counterValue (scrapeErrorsMetric (after (Collect c w ch))) =
           counterValue (scrapeErrorsMetric c)))
  /\ (forall (c : flowercareCollector) (ws : list scrape),
        counterValue (scrapeErrorsMetric (scrapes c ws)) =
          counterValue (scrapeErrorsMetric c) + failedRefreshes c ws)
  /\ (forall (c : flowercareCollector) (ws more : list scrape),
        counterValue (scrapeErrorsMetric (scrapes c ws))
        <= counterValue (scrapeErrorsMetric (scrapes c (ws ++ more))))
  /\ (forall (c : flowercareCollector) (w : scrape) (ch : chan Metric),
        nth_error (sent (Collect c w ch)) (List.length ch + 1) =
          Some (mkMetric (counterDesc (scrapeErrorsMetric c)) CounterValue
                  (float64_of_Z
                     (counterValue (scrapeErrorsMetric (after (Collect c w ch))))) [])).
Proof.
  split; [|split; [|split]].
  - intros c w ch. rewrite errors_after_Collect. split.
    + intros Hstale Hfails. apply stale_iff in Hstale. now rewrite Hstale, Hfails.
    + intros [Hfresh|Hok].
      * replace (stale c w) with false; [simpl; lia|].
        symmetry. unfold stale. rewrite Z.gtb_ltb. now apply Z.ltb_ge.
      * rewrite Hok, andb_false_r. lia.
  - intros c ws. apply errors_after_scrapes.
  - intros c ws more. rewrite scrapes_app, (errors_after_scrapes more).
    pose proof (failedRefreshes_nonneg more (scrapes c ws)). lia.
  - intros c w ch. rewrite sent_Collect, after_Collect, nth_error_app2 by lia.
    replace (List.length ch + 1 - List.length ch)%nat with 1%nat by lia.
    cbn [nth_error]. unfold Counter_Collect. do 2 f_equal.
    unfold refreshed. destruct (stale c w); [|reflexivity].
    destruct (fst _); reflexivity.
Qed.

Lemma scrape_errors_monotone_witness :
  counterValue (scrapeErrorsMetric
    (after (Collect cachedCollector
              (mkScrape (someDay + 3 * time.Minute) failingSession
                 (someDay + 3 * time.Minute) (someDay + 3 * time.Minute)) []))) =
    counterValue (scrapeErrorsMetric cachedCollector) + 1
  /\ counterValue (scrapeErrorsMetric
       (after (Collect cachedCollector
                 (mkScrape (someDay + time.Minute) failingSession
                    (someDay + time.Minute) (someDay + time.Minute)) []))) =
       counterValue (scrapeErrorsMetric cachedCollector).
Proof.
  split.
  - apply (proj1 (proj1 scrape_errors_monotone cachedCollector
             (mkScrape (someDay + 3 * time.Minute) failingSession
                (someDay + 3 * time.Minute) (someDay + 3 * time.Minute)) []));
      reflexivity.
  - apply (proj2 (proj1 scrape_errors_monotone cachedCollector
             (mkScrape (someDay + time.Minute) failingSession
                (someDay + time.Minute) (someDay + time.Minute)) [])).
    left. discriminate.
Defined.

(** Three scrapes two minutes and more apart, the second with a device
    that does not answer: the counter goes 0, 0, 1, 1. *)
Lemma scrape_errors_example :
  map (fun ws => counterValue (scrapeErrorsMetric (scrapes exampleCollector ws)))
    [ [];
      [mkScrape someDay exampleSession someDay someDay];
      [mkScrape someDay exampleSession someDay someDay;
       mkScrape (someDay + 3 * time.Minute) failingSession 0 (someDay + 3 * time.Minute)];
      [mkScrape someDay exampleSession someDay someDay;
       mkScrape (someDay + 3 * time.Minute) failingSession 0 (someDay + 3 * time.Minute);
       mkScrape (someDay + 6 * time.Minute) exampleSession
         (someDay + 6 * time.Minute) (someDay + 6 * time.Minute)] ]
  = [0; 0; 1; 1].
Proof. vm_compute. reflexivity. Qed.

(** ** Scrapes within one cache window *)

Lemma noRefreshIn_unchanged (ws : list scrape) (c : flowercareCollector) :
  noRefreshIn c ws ->
  scrapes c ws = c /\ Forall (fun w => stale c w = false) ws.
Proof.
  induction ws as [|w rest IH]; simpl; [now split|].
  intros [Hw Hrest]. rewrite refreshAttempted_stale in Hw.
  rewrite after_Collect, (refreshed_not_stale c w Hw) in *.
  destruct (IH Hrest) as [Hc Hall]. split; [exact Hc|]. now constructor.
Qed.

(** C8: take a sequence of scrapes none of which attempts a refresh, and
    in it two scrapes at which the cache is fresh.  Both send the same
    sensor metrics, the freshness timestamp among them: the ones of the
    cached reading, which none of the scrapes has touched. *)
Theorem same_window_same_metrics (c : flowercareCollector) (w1 w2 : scrape)
  (between : list scrape) (ch1 ch2 : chan Metric) :
  noRefreshIn c (w1 :: between ++ [w2]) ->
  fresh c w1 = true ->
  fresh c w2 = true ->
  let r1 := Collect c w1 ch1 in
  let r2 := Collect (scrapes c (w1 :: between)) w2 ch2 in
  skipn (List.length ch1 + 2) (sent r1) = skipn (List.length ch2 + 2) (sent r2)
  /\ nth_error (sent r1) (List.length ch1 + 2) = nth_error (sent r2) (List.length ch2 + 2)
  /\ skipn (List.length ch1 + 2) (sent r1) =
       firstn (firstFailure (sensorMetrics c (cache c))) (sensorMetrics c (cache c))
  /\ cache (after r2) = cache c.
Proof.
  intros Hno Hf1 Hf2 r1 r2. subst r1 r2.
  destruct (noRefreshIn_unchanged _ _ Hno) as [_ Hall].
  assert (Hw1 : stale c w1 = false) by now inversion Hall.
  assert (Hw2 : stale c w2 = false).
  { inversion Hall as [|? ? _ Hrest]. apply Forall_app in Hrest.
    destruct Hrest as [_ Hlast]. now inversion Hlast. }
  assert (Hc : scrapes c (w1 :: between) = c).
  { apply noRefreshIn_unchanged. change (w1 :: between ++ [w2]) with ((w1 :: between) ++ [w2]) in Hno.
    clear - Hno. revert c Hno. generalize (w1 :: between) as ws.
    induction ws as [|w rest IH]; intros c; simpl; [trivial|].
    intros [Hw Hrest]. split; [exact Hw|]. now apply IH. }
  rewrite Hc.
  assert (Hs1 : skipn (List.length ch1 + 2) (sent (Collect c w1 ch1)) =
                firstn (firstFailure (sensorMetrics c (cache c))) (sensorMetrics c (cache c))).
  { rewrite sent_sensors, (refreshed_not_stale c w1 Hw1). unfold sensorPart. now rewrite Hf1. }
  assert (Hs2 : skipn (List.length ch2 + 2) (sent (Collect c w2 ch2)) =
                firstn (firstFailure (sensorMetrics c (cache c))) (sensorMetrics c (cache c))).
  { rewrite sent_sensors, (refreshed_not_stale c w2 Hw2). unfold sensorPart. now rewrite Hf2. }
  split; [now rewrite Hs1, Hs2|]. split; [|split].
  - rewrite <- (Nat.add_0_r (List.length ch1 + 2)), <- (Nat.add_0_r (List.length ch2 + 2)).
    rewrite <- !nth_error_skipn. now rewrite Hs1, Hs2.
  - exact Hs1.
  - now rewrite after_Collect, (refreshed_not_stale c w2 Hw2).
Qed.

Lemma same_window_same_metrics_witness :
  skipn 2 (sent (Collect cachedCollector
                   (mkScrape (someDay + 10 * time.Second) failingSession 0
                      (someDay + 10 * time.Second)) [])) =
  skipn 2 (sent (Collect cachedCollector
                   (mkScrape (someDay + 60 * time.Second) failingSession 0
                      (someDay + 60 * time.Second)) [])).
Proof.
  pose proof (same_window_same_metrics cachedCollector
                (mkScrape (someDay + 10 * time.Second) failingSession 0
                   (someDay + 10 * time.Second))
                (mkScrape (someDay + 60 * time.Second) failingSession 0
                   (someDay + 60 * time.Second))
                [] [] []) as H.
  cbv zeta in H. apply H.
  - repeat split.
  - reflexivity.
  - reflexivity.
Defined.

(** ** Configuration *)

Lemma length_zero_empty (s : string) :
  Nat.eqb (String.length s) 0 = true <-> s = EmptyString.
Proof.
  destruct s; simpl; split; try reflexivity; discriminate.
Qed.

(** C9: when the device address or the adapter of the configuration is
    empty, [parseConfig] returns an error, and [main] then does nothing but
    end the process with this error: it opens no session with the device
    and does not listen.  A device address that is not given is empty.  A
    cache duration that is not given is two minutes, which is positive. *)
Theorem configuration_fails_fast (args : flags) :
  (cfgMacAddress (fst (parseConfig args)) = EmptyString
   \/ cfgDevice (fst (parseConfig args)) = EmptyString ->
   exists e, snd (parseConfig args) = Some e
             /\ forall registered,
                  main args registered = [actFatalConfiguration e]
                  /\ existsb touchesOutside (main args registered) = false)
  /\ (flagDevice args = None -> cfgMacAddress (fst (parseConfig args)) = EmptyString)
  /\ (flagCacheDuration args = None ->
      cfgCacheDuration (fst (parseConfig args)) = 2 * 60 * 1000000000
      /\ 0 < cfgCacheDuration (fst (parseConfig args))).
Proof.
  split; [|split].
  - unfold main, parseConfig. cbn [ListenAddr cfgMacAddress cfgDevice cfgCacheDuration].
    destruct (Nat.eqb (String.length (flagOr (flagDevice args) EmptyString)) 0) eqn:Emac.
    + intros _. exists errNeedDeviceAddress. repeat split.
    + destruct (Nat.eqb (String.length (flagOr (flagAdapter args) "hci0"%string)) 0) eqn:Edev.
      * intros _. exists errNeedBluetoothDevice. repeat split.
      * cbn [fst cfgMacAddress cfgDevice]. intros [H|H];
          apply length_zero_empty in H; congruence.
  - intros Hnone. unfold parseConfig. rewrite Hnone.
    cbn [flagOr cfgMacAddress String.length Nat.eqb fst]. reflexivity.
  - intros Hnone. unfold parseConfig. rewrite Hnone. cbn [flagOr cfgCacheDuration].
    destruct (Nat.eqb _ 0); [|destruct (Nat.eqb _ 0)]; split; reflexivity.
Qed.

Lemma configuration_fails_fast_witness :
  main (mkFlags None None (Some EmptyString) None) None
    = [actFatalConfiguration errNeedDeviceAddress]
  /\ cfgMacAddress (fst (parseConfig (mkFlags None None (Some EmptyString) None)))
     = EmptyString
  /\ 0 < cfgCacheDuration (fst (parseConfig (mkFlags None None (Some EmptyString) None))).
Proof.
  pose proof (configuration_fails_fast (mkFlags None None (Some EmptyString) None))
    as (Hfail & Hmac & Hdur).
  split; [|split].
  - destruct Hfail as (e & He & Hmain); [left; reflexivity|].
    injection He as <-. apply Hmain.
  - apply Hmac. reflexivity.
  - apply Hdur. reflexivity.
Defined.

(** The adapter alone being empty is refused as well, and a configuration
    with both goes on to the device and the network. *)
Lemma main_examples :
  main (mkFlags None (Some "C4:7C:8D:6A:5B:4E"%string) (Some EmptyString) None) None =
    [actFatalConfiguration errNeedBluetoothDevice]
  /\ main (mkFlags None (Some "C4:7C:8D:6A:5B:4E"%string) None None) None =
       [ actLogLookingFor "C4:7C:8D:6A:5B:4E" "hci0";
         actDataReader "C4:7C:8D:6A:5B:4E" "hci0";
         actNewCollector 120000000000 "C4:7C:8D:6A:5B:4E";
         actRegister; actHandleMetrics; actHandleRedirect;
         actLogListenOn ":9294"; actListenAndServe ":9294" ].
Proof. split; reflexivity. Qed.

(** ** A cache duration that is not positive *)

Lemma Since_nonneg (now t : time.Time) :
  t <= now -> 0 <= time.Since now t /\ (t < now -> 0 < time.Since now t).
Proof.
  unfold time.Since, time.Sub. intros Hle.
  assert (Hm : time.maxDuration = 9223372036854775807) by reflexivity.
  assert (Hn : time.minDuration = -9223372036854775808) by reflexivity.
  rewrite Hm, Hn.
  destruct (Z.ltb_spec (now - t) (-9223372036854775808)); [lia|].
  destruct (Z.ltb_spec 9223372036854775807 (now - t)); lia.
Qed.

(** With cache duration 0, a scrape whose clock reads the very instant of
    the cached reading does not attempt a refresh. *)
Lemma zero_duration_can_skip_refresh :
  CacheDuration uncachedCollector = 0
  /\ Time (cache uncachedCollector) = someDay
  /\ refreshAttempted
       (Collect uncachedCollector (mkScrape someDay exampleSession someDay someDay) [])
     = false
  /\ ~ everyScrapeRefreshes 0.
Proof.
  repeat split.
  intros H.
  specialize (H uncachedCollector (mkScrape someDay exampleSession someDay someDay) []
                eq_refl (Z.le_refl _)).
  vm_compute in H. discriminate H.
Qed.

(** C10, as the code has it: with a cache duration that is not positive
    and a clock that does not run backwards, a call of [Collect] sends the
    liveness gauge and the error counter and nothing else; it attempts a
    refresh whenever the cache duration is negative or the clock has moved
    past the cached time, and with cache duration 0 only then. *)
Theorem nonpositive_duration_never_emits (c : flowercareCollector) (w : scrape)
  (ch : chan Metric) :
  CacheDuration c <= 0 ->
  Time (cache c) <= atCheck w ->
  Time (cache c) <= atEmit w ->
  atRead w <= atEmit w ->
  sent (Collect c w ch) =
    ch ++ [ Gauge_Collect (upMetric (after (Collect c w ch)));
            Counter_Collect (scrapeErrorsMetric (after (Collect c w ch))) ]
  /\ (CacheDuration c < 0 \/ Time (cache c) < atCheck w ->
      refreshAttempted (Collect c w ch) = true)
  /\ (CacheDuration c = 0 ->
      (refreshAttempted (Collect c w ch) = true <-> Time (cache c) < atCheck w)).
Proof.
  intros Hd Hcheck Hemit Hread.
  destruct (Since_nonneg (atCheck w) (Time (cache c)) Hcheck) as [Hge Hgt].
  split; [|split].
  - rewrite sent_Collect, after_Collect.
    replace (sensorPart (refreshed c w) w) with (@nil Metric); [reflexivity|].
    unfold sensorPart.
    replace (fresh (refreshed c w) w) with false; [reflexivity|].
    symmetry. unfold fresh. apply Z.ltb_ge.
    destruct (refreshed_config c w) as [-> _].
    assert (Ht : Time (cache (refreshed c w)) <= atEmit w).
    { unfold refreshed. destruct (stale c w); [|exact Hemit].
      destruct (fst (readData c (session w) (atRead w))) as [data|e] eqn:E;
        [|exact Hemit].
      apply readData_Ok in E. destruct E as (fw & sn & _ & _ & ->). exact Hread. }
    destruct (Since_nonneg (atEmit w) _ Ht) as [Hge' _]. lia.
  - intros Hor. rewrite refreshAttempted_stale. unfold stale.
    rewrite Z.gtb_ltb. apply Z.ltb_lt. destruct Hor as [Hneg|Hpast]; [lia|].
    specialize (Hgt Hpast). lia.
  - intros Hzero. rewrite refreshAttempted_stale. unfold stale.
    rewrite Z.gtb_ltb, Z.ltb_lt, Hzero. split.
    + intros Hs. destruct (Z.eq_dec (Time (cache c)) (atCheck w)) as [Heq|Hne]; [|lia].
      rewrite Heq in Hs. unfold time.Since, time.Sub in Hs.
      rewrite Z.sub_diag in Hs. simpl in Hs. lia.
    + exact Hgt.
Qed.

Lemma nonpositive_duration_never_emits_witness :
  List.length (sent (Collect uncachedCollector
                       (mkScrape (someDay + time.Second) exampleSession
                          (someDay + 2 * time.Second) (someDay + 3 * time.Second)) []))
  = 2%nat
  /\ refreshAttempted
       (Collect uncachedCollector
          (mkScrape (someDay + time.Second) exampleSession
             (someDay + 2 * time.Second) (someDay + 3 * time.Second)) []) = true
  /\ (refreshAttempted
        (Collect uncachedCollector
           (mkScrape (someDay + time.Second) exampleSession
              (someDay + 2 * time.Second) (someDay + 3 * time.Second)) []) = true
      <-> Time (cache uncachedCollector) < someDay + time.Second).
Proof.
  destruct (nonpositive_duration_never_emits uncachedCollector
              (mkScrape (someDay + time.Second) exampleSession
                 (someDay + 2 * time.Second) (someDay + 3 * time.Second)) [])
    as (Hsent & Hattempt & Hzero).
  - discriminate.
  - discriminate.
  - discriminate.
  - discriminate.
  - split; [|split].
    + rewrite Hsent. reflexivity.
    + apply Hattempt. right. reflexivity.
    + apply Hzero. reflexivity.
Defined.

(** ** The cache of a collector that is in use *)

Lemma readFrom_more (pre more : list scrape) (data : sensorData) :
  readFrom pre data -> readFrom (pre ++ more) data.
Proof.
  intros (w & fw & sn & Hin & H). exists w, fw, sn. split; [|exact H].
  apply in_or_app. now left.
Qed.

(** What holds of a collector and the scrapes it has been through. *)
Lemma scrapes_invariant (ws pre : list scrape) (c : flowercareCollector) :
  (0 <= counterValue (scrapeErrorsMetric c) <= Z.of_nat (List.length pre)
   /\ (gaugeValue (upMetric c) = 0%float \/ gaugeValue (upMetric c) = 1%float)
   /\ (cache c = zeroSensorData \/ readFrom pre (cache c))
   /\ (gaugeValue (upMetric c) = 1%float -> readFrom pre (cache c))) ->
  0 <= counterValue (scrapeErrorsMetric (scrapes c ws))
    <= Z.of_nat (List.length (pre ++ ws))
  /\ (gaugeValue (upMetric (scrapes c ws)) = 0%float
      \/ gaugeValue (upMetric (scrapes c ws)) = 1%float)
  /\ (cache (scrapes c ws) = zeroSensorData \/ readFrom (pre ++ ws) (cache (scrapes c ws)))
  /\ (gaugeValue (upMetric (scrapes c ws)) = 1%float ->
      readFrom (pre ++ ws) (cache (scrapes c ws))).
Proof.
  revert pre c. induction ws as [|w rest IH]; intros pre c H.
  - now rewrite app_nil_r.
  - cbn [scrapes].
    replace (pre ++ w :: rest) with ((pre ++ [w]) ++ rest) by now rewrite <- app_assoc.
    apply IH. clear IH. destruct H as (Hn & Hg & Hc & Hone).
    rewrite after_Collect, length_app, Nat2Z.inj_add. cbn [List.length].
    unfold refreshed. destruct (stale c w).
    + destruct (fst (readData c (session w) (atRead w))) as [data|e] eqn:E.
      * apply readData_Ok in E. destruct E as (fw & sn & Hf & Hs & ->).
        assert (Hread : readFrom (pre ++ [w]) (mkSensorData (atRead w) fw sn)).
        { exists w, fw, sn. split; [apply in_or_app; right; now left|].
          repeat split; assumption. }
        cbn. split; [lia|]. split; [now right|]. split; [now right|].
        intros _. exact Hread.
      * cbn. split; [lia|]. split; [now left|].
        split; [destruct Hc as [Hc|Hc]; [now left|right; now apply readFrom_more]|].
        intros H. exfalso.
        apply (f_equal (fun x => PrimFloat.eqb x 1%float)) in H. discriminate H.
    + split; [lia|]. split; [exact Hg|].
      split; [destruct Hc as [Hc|Hc]; [now left|right; now apply readFrom_more]|].
      intros H. apply readFrom_more. now apply Hone.
Qed.

Lemma newCollector_invariant (mac device : string) (d : time.Duration) :
  0 <= counterValue (scrapeErrorsMetric (newCollector mac device d))
    <= Z.of_nat (List.length (@nil scrape))
  /\ (gaugeValue (upMetric (newCollector mac device d)) = 0%float
      \/ gaugeValue (upMetric (newCollector mac device d)) = 1%float)
  /\ (cache (newCollector mac device d) = zeroSensorData
      \/ readFrom [] (cache (newCollector mac device d)))
  /\ (gaugeValue (upMetric (newCollector mac device d)) = 1%float ->
      readFrom [] (cache (newCollector mac device d))).
Proof.
  split; [now split|]. split; [now left|]. split; [now left|].
  cbn. intros H. exfalso.
  apply (f_equal (fun x => PrimFloat.eqb x 1%float)) in H. discriminate H.
Qed.

(** The collectors the exporter can be in are those a sequence of scrapes
    makes of a new collector. *)
Lemma reachable_scrapes (mac device : string) (d : time.Duration)
  (c : flowercareCollector) :
  reachable mac device d c <-> exists ws, c = scrapes (newCollector mac device d) ws.
Proof.
  split.
  - induction 1 as [|c w ch _ [ws ->]]; [now exists []|].
    exists (ws ++ [w]). rewrite scrapes_app. cbn [scrapes].
    now rewrite !after_Collect.
  - intros [ws ->].
    assert (H : forall c, reachable mac device d c -> reachable mac device d (scrapes c ws)).
    { induction ws as [|w rest IH]; intros c Hc; [exact Hc|].
      cbn [scrapes]. apply IH. now apply reachable_Collect. }
    apply H, reachable_new.
Qed.

(** A reading that is present was read from the device by one of the
    scrapes, and a refresh that succeeds makes the reading present. *)
Lemma readingPresent_was_read (mac device : string) (d : time.Duration)
  (ws : list scrape) :
  readingPresent (scrapes (newCollector mac device d) ws) ->
  readFrom ws (cache (scrapes (newCollector mac device d) ws)).
Proof.
  intros Hp.
  destruct (scrapes_invariant ws [] _ (newCollector_invariant mac device d))
    as (_ & _ & [Hzero|Hread] & _); [|exact Hread].
  exfalso. apply Hp. now rewrite Hzero.
Qed.

Lemma refresh_stores_reading (c : flowercareCollector) (w : scrape) (ch : chan Metric) :
  refreshAttempted (Collect c w ch) = true ->
  refreshFailed (Collect c w ch) = false ->
  Time (cache (after (Collect c w ch))) = atRead w.
Proof.
  rewrite refreshFailed_iff, refreshAttempted_stale, after_Collect. unfold refreshed.
  intros ->. simpl.
  destruct (fst (readData c (session w) (atRead w))) as [data|e] eqn:E; [|discriminate].
  intros _. apply readData_Ok in E. now destruct E as (fw & sn & _ & _ & ->).
Qed.

Lemma refresh_makes_present (c : flowercareCollector) (w : scrape) (ch : chan Metric) :
  sinceEpoch (atRead w) ->
  refreshAttempted (Collect c w ch) = true ->
  refreshFailed (Collect c w ch) = false ->
  readingPresent (after (Collect c w ch)).
Proof.
  intros Hepoch Ha Hf.
  unfold readingPresent, sinceEpoch in *. rewrite (refresh_stores_reading c w ch Ha Hf).
  assert (Hz : time.zeroTime = -62135596800000000000) by reflexivity. lia.
Qed.

(** ** The scenario of the specification

    Cache duration two minutes; the device answers at time 0; a scrape ten
    seconds later reports the reading, and a scrape at 130 seconds attempts
    a refresh before it sends anything. *)
Lemma end_to_end_scenario :
  let c := after (Collect (newCollector "C4:7C:8D:6A:5B:4E" "hci0" (2 * time.Minute))
                    (mkScrape 0 exampleSession 0 0) []) in
  map (fun m => (fqName (desc m), value m, labelValues m))
    (sent (Collect c (mkScrape (10 * time.Second) failingSession 0 (10 * time.Second)) []))
  = [ ("flowercare_up", 1%float, []);
      ("flowercare_scrape_errors_total", 0%float, []);
      ("flowercare_scrape_timestamp", 0%float, []);
      ("flowercare_info", 1%float, ["1.2"]);
      ("flowercare_battery_percent", 80%float, []);
      ("flowercare_conductivity_sm", 0.035%float, []);
      ("flowercare_brightness_lux", 1200%float, []);
      ("flowercare_moisture_percent", 30%float, []);
      ("flowercare_temperature_celsius", 22.5%float, []) ]%string
  /\ refreshAttempted
       (Collect c (mkScrape (10 * time.Second) failingSession 0 (10 * time.Second)) [])
     = false
  /\ refreshAttempted
       (Collect c (mkScrape (130 * time.Second) exampleSession (131 * time.Second)
                     (131 * time.Second)) [])
     = true.
Proof. vm_compute. repeat split. Qed.


(** * Further properties of the collector *)

(** ** Clock arithmetic *)

Lemma Sub_monotone (t a b : time.Time) :
  a <= b -> time.Sub a t <= time.Sub b t.
Proof.
  unfold time.Sub. intros Hab.
  assert (Hm : time.maxDuration = 9223372036854775807) by reflexivity.
  assert (Hn : time.minDuration = -9223372036854775808) by reflexivity.
  rewrite Hm, Hn.
  destruct (Z.ltb_spec (a - t) (-9223372036854775808));
    destruct (Z.ltb_spec (b - t) (-9223372036854775808));
    destruct (Z.ltb_spec 9223372036854775807 (a - t));
    destruct (Z.ltb_spec 9223372036854775807 (b - t)); lia.
Qed.

Lemma Since_in_range (now t : time.Time) :
  time.is_Duration (now - t) -> time.Since now t = now - t.
Proof.
  unfold time.is_Duration, time.Since, time.Sub. intros [Hlo Hhi].
  destruct (Z.ltb_spec (now - t) time.minDuration); [lia|].
  destruct (Z.ltb_spec time.maxDuration (now - t)); [lia|reflexivity].
Qed.

Lemma Since_le (now t : time.Time) (d : time.Duration) :
  time.is_Duration d -> now - t <= d -> time.Since now t <= d.
Proof.
  unfold time.is_Duration, time.Since, time.Sub. intros [Hlo Hhi] Hd.
  destruct (Z.ltb_spec (now - t) time.minDuration); [lia|].
  destruct (Z.ltb_spec time.maxDuration (now - t)); lia.
Qed.

Lemma Since_ge (now t : time.Time) (d : time.Duration) :
  time.is_Duration d -> d <= now - t -> d <= time.Since now t.
Proof.
  unfold time.is_Duration, time.Since, time.Sub. intros [Hlo Hhi] Hd.
  destruct (Z.ltb_spec (now - t) time.minDuration); [lia|].
  destruct (Z.ltb_spec time.maxDuration (now - t)); lia.
Qed.

(** ** What a scrape leaves alone *)

Lemma refreshed_identity (c : flowercareCollector) (w : scrape) :
  MacAddress (refreshed c w) = MacAddress c
  /\ Device (refreshed c w) = Device c
  /\ gaugeDesc (upMetric (refreshed c w)) = gaugeDesc (upMetric c)
  /\ counterDesc (scrapeErrorsMetric (refreshed c w)) = counterDesc (scrapeErrorsMetric c).
Proof.
  unfold refreshed. destruct (stale c w); [|repeat split].
  destruct (fst _); repeat split.
Qed.

Lemma descriptors_refreshed (c : flowercareCollector) (w : scrape) :
  descriptors (refreshed c w) = descriptors c.
Proof.
  unfold descriptors.
  destruct (refreshed_config c w) as (_ & -> & -> & -> & -> & -> & -> & ->).
  destruct (refreshed_identity c w) as (_ & _ & -> & ->). reflexivity.
Qed.

Lemma Describe_descriptors (c : flowercareCollector) (ch : chan Desc) :
  Describe c ch = ch ++ descriptors c.
Proof.
  unfold Describe, descriptors, send. now rewrite <- !app_assoc.
Qed.

(** X1: what a call of [Collect] does is the same on any channel: the
    metrics are added behind what the channel held, which is kept as it
    was, and neither the collector nor the events depend on the channel. *)
Theorem Collect_channel_frame (c : flowercareCollector) (w : scrape) (ch : chan Metric) :
  sent (Collect c w ch) = ch ++ sent (Collect c w [])
  /\ after (Collect c w ch) = after (Collect c w [])
  /\ events (Collect c w ch) = events (Collect c w []).
Proof.
  split; [|split].
  - now rewrite !sent_Collect.
  - now rewrite !after_Collect.
  - now rewrite !events_Collect.
Qed.

(** X2: a call of [Collect] adds at least two and at most nine metrics.
    The first is the liveness gauge and the second the error counter, with
    the descriptors the collector had before the call; the others are
    gauges; and every one of them carries a descriptor that [Describe]
    announces. *)
Theorem Collect_sends_described (c : flowercareCollector) (w : scrape) (ch : chan Metric) :
  let added := skipn (List.length ch) (sent (Collect c w ch)) in
  (2 <= List.length added <= 9)%nat
  /\ map (fun m => (desc m, valType m)) (firstn 2 added) =
       [ (gaugeDesc (upMetric c), GaugeValue);
         (counterDesc (scrapeErrorsMetric c), CounterValue) ]
  /\ Forall (fun m => valType m = GaugeValue) (skipn 2 added)
  /\ Forall (fun m => In (desc m) (Describe c [])) added.
Proof.
  intros added. subst added.
  rewrite sent_Collect, skipn_app, Nat.sub_diag, skipn_all. cbn [skipn app].
  rewrite Describe_descriptors. cbn [app].
  pose proof (descriptors_refreshed c w) as Hd.
  destruct (refreshed_identity c w) as (_ & _ & Hup & Herr).
  set (c' := refreshed c w) in *.
  assert (Hsub : exists k, sensorPart c' w = firstn k (sensorMetrics c' (cache c'))).
  { unfold sensorPart. destruct (fresh c' w); [eexists; reflexivity|now exists O]. }
  destruct Hsub as [k Hk].
  assert (Hall : Forall (fun m => valType m = GaugeValue /\ In (desc m) (descriptors c))
                   (sensorPart c' w)).
  { rewrite Hk. apply Forall_forall. intros m Hm.
    apply (In_nth_error (firstn k _)) in Hm. destruct Hm as [i Hi].
    apply nth_error_prefix in Hi. rewrite <- Hd. unfold descriptors.
    do 7 (destruct i as [|i]; [injection Hi as <-; cbn; intuition|]).
    destruct i; discriminate. }
  split; [|split; [|split]].
  - cbn [List.length]. rewrite Hk, length_firstn. cbn [sensorMetrics List.length]. lia.
  - cbn. now rewrite Hup, Herr.
  - eapply Forall_impl; [|exact Hall]. now intros m [Hm _].
  - constructor; [|constructor].
    + cbn [desc Gauge_Collect]. rewrite Hup. now left.
    + cbn [desc Counter_Collect]. rewrite Herr. right. now left.
    + eapply Forall_impl; [|exact Hall]. now intros m [_ Hm].
Qed.

Lemma scrapes_config (ws : list scrape) (c : flowercareCollector) :
  MacAddress (scrapes c ws) = MacAddress c
  /\ Device (scrapes c ws) = Device c
  /\ CacheDuration (scrapes c ws) = CacheDuration c
  /\ descriptors (scrapes c ws) = descriptors c.
Proof.
  revert c. induction ws as [|w rest IH]; intros c; simpl; [repeat split|].
  destruct (IH (after (Collect c w []))) as (-> & -> & -> & ->).
  rewrite after_Collect, descriptors_refreshed.
  destruct (refreshed_identity c w) as (-> & -> & _).
  destruct (refreshed_config c w) as (-> & _). repeat split.
Qed.

(** X3: no sequence of scrapes changes the device address, the adapter,
    the cache duration or a descriptor of the collector: [Describe]
    announces after the scrapes what it announced before. *)
Theorem scrapes_keep_configuration (c : flowercareCollector) (ws : list scrape)
  (ch : chan Desc) :
  MacAddress (scrapes c ws) = MacAddress c
  /\ Device (scrapes c ws) = Device c
  /\ CacheDuration (scrapes c ws) = CacheDuration c
  /\ Describe (scrapes c ws) ch = Describe c ch
  /\ List.length (Describe c ch) = (List.length ch + 9)%nat.
Proof.
  destruct (scrapes_config ws c) as (Hm & Hd & Hc & Hdesc).
  repeat split; try assumption.
  - now rewrite !Describe_descriptors, Hdesc.
  - rewrite Describe_descriptors, length_app. reflexivity.
Qed.

(** ** The device in a scrape *)

Lemma filter_no_device_call (evs : list event) :
  existsb isDeviceCall evs = false -> filter isDeviceCall evs = [].
Proof.
  induction evs as [|e rest IH]; simpl; [reflexivity|].
  destruct (isDeviceCall e); simpl; [discriminate|exact IH].
Qed.

Lemma events_tail_no_device (c : flowercareCollector) (w : scrape) :
  filter isDeviceCall
    (if fresh (refreshed c w) w then
       match snd (collectData (refreshed c w) [] (cache (refreshed c w))) with
       | Some e => [evLogErrorCollectingMetrics e]
       | None => []
       end
     else []) = [].
Proof. destruct (fresh _ _); [destruct (snd _)|]; reflexivity. Qed.

(** X4: a call of [Collect] reads the firmware at most once and the
    sensors at most once, the firmware first, and it does not read the
    sensors when the firmware could not be read: there is no second try.
    The error it logs for a failed refresh tells which of the two reads
    failed and wraps the error of the device. *)
Theorem Collect_reads_device_once (c : flowercareCollector) (w : scrape)
  (ch : chan Metric) :
  filter isDeviceCall (events (Collect c w ch)) =
    (if refreshAttempted (Collect c w ch) then
       match ReadFirmware (session w) with
       | Ok _ => [evReadFirmware; evReadSensors]
       | Err _ => [evReadFirmware]
       end
     else [])
  /\ (refreshAttempted (Collect c w ch) = true ->
      forall e, ReadFirmware (session w) = Err e ->
      filter isScrapeError (events (Collect c w ch)) =
        [evLogErrorDuringScrape (errCanNotReadFirmware e)])
  /\ (refreshAttempted (Collect c w ch) = true ->
      forall firmware e,
        ReadFirmware (session w) = Ok firmware ->
        ReadSensors (session w) = Err e ->
        filter isScrapeError (events (Collect c w ch)) =
          [evLogErrorDuringScrape (errCanNotReadSensors e)]).
Proof.
  rewrite refreshAttempted_stale, events_Collect, !filter_app, events_tail_no_device,
    app_nil_r.
  assert (Htail : filter isScrapeError
            (if fresh (refreshed c w) w then
               match snd (collectData (refreshed c w) [] (cache (refreshed c w))) with
               | Some e => [evLogErrorCollectingMetrics e]
               | None => []
               end
             else []) = []).
  { destruct (fresh _ _); [destruct (snd _)|]; reflexivity. }
  rewrite Htail, app_nil_r. unfold refreshEvents, readData.
  destruct (stale c w); [|split; [reflexivity|split; discriminate]].
  split; [|split].
  - destruct (ReadFirmware (session w)); [destruct (ReadSensors (session w))|];
      reflexivity.
  - intros _ e ->. reflexivity.
  - intros _ fw e -> ->. reflexivity.
Qed.

Lemma Collect_reads_device_once_witness :
  filter isScrapeError
    (events (Collect exampleCollector (mkScrape someDay failingSession someDay someDay) []))
  = [evLogErrorDuringScrape (errCanNotReadFirmware (errDevice "timeout"))]
  /\ filter isScrapeError
       (events (Collect exampleCollector (mkScrape someDay halfSession someDay someDay) []))
     = [evLogErrorDuringScrape (errCanNotReadSensors (errDevice "timeout"))].
Proof.
  split.
  - apply (proj1 (proj2 (Collect_reads_device_once exampleCollector
             (mkScrape someDay failingSession someDay someDay) [])));
      reflexivity.
  - apply (proj2 (proj2 (Collect_reads_device_once exampleCollector
             (mkScrape someDay halfSession someDay someDay) []))
             eq_refl (mkFirmware "1.2" 80)); reflexivity.
Defined.

Lemma not_fresh_sent (c : flowercareCollector) (w : scrape) (ch : chan Metric) :
  fresh (refreshed c w) w = false ->
  sent (Collect c w ch) =
    ch ++ [ Gauge_Collect (upMetric (refreshed c w));
            Counter_Collect (scrapeErrorsMetric (refreshed c w)) ].
Proof.
  intros Hf. rewrite sent_Collect. unfold sensorPart. now rewrite Hf.
Qed.

Lemma refreshFailed_cases (c : flowercareCollector) (w : scrape) (ch : chan Metric) :
  refreshFailed (Collect c w ch) = true ->
  stale c w = true
  /\ refreshed c w =
       with_upMetric (with_scrapeErrorsMetric c (Counter_Inc (scrapeErrorsMetric c)))
         (Gauge_Set (upMetric c) 0%float).
Proof.
  rewrite refreshFailed_iff. unfold refreshed.
  destruct (stale c w); [|discriminate]. simpl.
  destruct (fst (readData c (session w) (atRead w))); [discriminate|].
  now split.
Qed.

(** X5: when the refresh of a call fails and the clock has not run
    backwards between the two tests of the call, the call sends the
    liveness gauge at 0 and the error counter and no sensor metric: a
    reading is never served from the cache in a call that tried to replace
    it. *)
Theorem failed_refresh_sends_no_sensor_metric (c : flowercareCollector) (w : scrape)
  (ch : chan Metric) :
  refreshFailed (Collect c w ch) = true ->
  atCheck w <= atEmit w ->
  sent (Collect c w ch) =
    ch ++ [ mkMetric (gaugeDesc (upMetric c)) GaugeValue 0%float [];
            mkMetric (counterDesc (scrapeErrorsMetric c)) CounterValue
              (float64_of_Z (counterValue (scrapeErrorsMetric c) + 1)) [] ].
Proof.
  intros Hfail Hclock.
  destruct (refreshFailed_cases c w ch Hfail) as [Hstale Hr].
  rewrite not_fresh_sent; [now rewrite Hr|].
  rewrite Hr. unfold fresh. cbn [cache CacheDuration with_upMetric with_scrapeErrorsMetric].
  unfold stale in Hstale. rewrite Z.gtb_ltb in Hstale. apply Z.ltb_lt in Hstale.
  apply Z.ltb_ge. pose proof (Sub_monotone (Time (cache c)) _ _ Hclock) as Hm.
  unfold time.Since in *. lia.
Qed.

Lemma failed_refresh_sends_no_sensor_metric_witness :
  map (fun m => (fqName (desc m), value m))
    (sent (Collect cachedCollector
             (mkScrape (someDay + 3 * time.Minute) failingSession 0
                (someDay + 3 * time.Minute)) []))
  = [ ("flowercare_up"%string, 0%float);
      ("flowercare_scrape_errors_total"%string, 1%float) ].
Proof.
  rewrite (failed_refresh_sends_no_sensor_metric cachedCollector
             (mkScrape (someDay + 3 * time.Minute) failingSession 0
                (someDay + 3 * time.Minute)) []).
  - reflexivity.
  - reflexivity.
  - apply Z.le_refl.
Defined.

(** X6: a refresh that failed is tried again by the next scrape, however
    soon it comes, as long as its clock is not behind: a failure starts no
    waiting time. *)
Theorem failed_refresh_is_retried (c : flowercareCollector) (w next : scrape)
  (ch ch' : chan Metric) :
  refreshFailed (Collect c w ch) = true ->
  atCheck w <= atCheck next ->
  refreshAttempted (Collect (after (Collect c w ch)) next ch') = true.
Proof.
  intros Hfail Hclock.
  destruct (refreshFailed_cases c w ch Hfail) as [Hstale Hr].
  rewrite refreshAttempted_stale, after_Collect, Hr.
  unfold stale in *. cbn [cache CacheDuration with_upMetric with_scrapeErrorsMetric].
  rewrite Z.gtb_ltb in *. apply Z.ltb_lt in Hstale. apply Z.ltb_lt.
  pose proof (Sub_monotone (Time (cache c)) _ _ Hclock) as Hm.
  unfold time.Since in *. lia.
Qed.

Lemma failed_refresh_is_retried_witness :
  refreshAttempted
    (Collect (after (Collect exampleCollector
                       (mkScrape someDay failingSession someDay someDay) []))
       (mkScrape (someDay + 1) exampleSession (someDay + 1) (someDay + 1)) []) = true.
Proof.
  apply (failed_refresh_is_retried exampleCollector
           (mkScrape someDay failingSession someDay someDay)
           (mkScrape (someDay + 1) exampleSession (someDay + 1) (someDay + 1)) [] []).
  - reflexivity.
  - discriminate.
Defined.

(** ** The cache window *)

Lemma sensorMetrics_refreshed (c : flowercareCollector) (w : scrape) (data : sensorData) :
  sensorMetrics (refreshed c w) data = sensorMetrics c data.
Proof.
  unfold sensorMetrics.
  destruct (refreshed_config c w) as (_ & -> & -> & -> & -> & -> & -> & ->).
  reflexivity.
Qed.

(** X7: a scrape that finds the cache no older than [CacheDuration] at
    its first test and younger at its second does not call the device,
    leaves the collector as it is and sends, behind the liveness gauge and
    the error counter, the sensor metrics of the cached reading, all seven
    when each can be constructed. *)
Theorem cached_reading_is_served (c : flowercareCollector) (w : scrape) (ch : chan Metric) :
  time.is_Duration (CacheDuration c) ->
  atCheck w - Time (cache c) <= CacheDuration c ->
  Time (cache c) <= atEmit w ->
  atEmit w - Time (cache c) < CacheDuration c ->
  refreshAttempted (Collect c w ch) = false
  /\ after (Collect c w ch) = c
  /\ sent (Collect c w ch) =
       ch ++ Gauge_Collect (upMetric c) :: Counter_Collect (scrapeErrorsMetric c)
          :: firstn (firstFailure (sensorMetrics c (cache c))) (sensorMetrics c (cache c))
  /\ ((forall m, In m (sensorMetrics c (cache c)) -> constructionError m = None) ->
      sent (Collect c w ch) =
        ch ++ Gauge_Collect (upMetric c) :: Counter_Collect (scrapeErrorsMetric c)
           :: sensorMetrics c (cache c)).
Proof.
  intros Hd Hcheck Hclock Hemit.
  assert (Hstale : stale c w = false).
  { unfold stale. rewrite Z.gtb_ltb. apply Z.ltb_ge. now apply Since_le. }
  assert (Hfresh : fresh c w = true).
  { unfold fresh. apply Z.ltb_lt. rewrite Since_in_range; [exact Hemit|].
    unfold time.is_Duration in *.
    assert (Hn : time.minDuration = -9223372036854775808) by reflexivity. lia. }
  assert (Hsent : sent (Collect c w ch) =
            ch ++ Gauge_Collect (upMetric c) :: Counter_Collect (scrapeErrorsMetric c)
               :: firstn (firstFailure (sensorMetrics c (cache c)))
                    (sensorMetrics c (cache c))).
  { rewrite sent_Collect, (refreshed_not_stale c w Hstale). unfold sensorPart.
    now rewrite Hfresh. }
  split; [now rewrite refreshAttempted_stale|].
  split; [now rewrite after_Collect, refreshed_not_stale|].
  split; [exact Hsent|].
  intros Hall. now rewrite Hsent, (firstFailure_none _ Hall), firstn_all.
Qed.

Lemma cached_reading_is_served_witness :
  map (fun m => fqName (desc m))
    (sent (Collect cachedCollector
             (mkScrape (someDay + time.Minute) failingSession 0
                (someDay + time.Minute + time.Second)) []))
  = [ "flowercare_up"; "flowercare_scrape_errors_total"; "flowercare_scrape_timestamp";
      "flowercare_info"; "flowercare_battery_percent"; "flowercare_conductivity_sm";
      "flowercare_brightness_lux"; "flowercare_moisture_percent";
      "flowercare_temperature_celsius" ]%string.
Proof.
  destruct (cached_reading_is_served cachedCollector
              (mkScrape (someDay + time.Minute) failingSession 0
                 (someDay + time.Minute + time.Second)) []) as (_ & _ & _ & Hall).
  - split; discriminate.
  - discriminate.
  - discriminate.
  - reflexivity.
  - rewrite Hall; [reflexivity|].
    intros m Hm. simpl in Hm.
    repeat (destruct Hm as [<-|Hm]; [reflexivity|]).
    contradiction.
Defined.

(** X8: a scrape that finds the cache no older than [CacheDuration] at
    its first test and no younger at its second, as one whose clock reads
    the cached time plus [CacheDuration] at both, neither calls the device
    nor sends a sensor metric, and leaves the collector as it is. *)
Theorem expiring_cache_is_neither_refreshed_nor_served (c : flowercareCollector)
  (w : scrape) (ch : chan Metric) :
  time.is_Duration (CacheDuration c) ->
  atCheck w - Time (cache c) <= CacheDuration c ->
  CacheDuration c <= atEmit w - Time (cache c) ->
  refreshAttempted (Collect c w ch) = false
  /\ after (Collect c w ch) = c
  /\ sent (Collect c w ch) =
       ch ++ [Gauge_Collect (upMetric c); Counter_Collect (scrapeErrorsMetric c)].
Proof.
  intros Hd Hcheck Hemit.
  assert (Hstale : stale c w = false).
  { unfold stale. rewrite Z.gtb_ltb. apply Z.ltb_ge. now apply Since_le. }
  assert (Hfresh : fresh c w = false).
  { unfold fresh. apply Z.ltb_ge. now apply Since_ge. }
  split; [now rewrite refreshAttempted_stale|].
  split; [now rewrite after_Collect, refreshed_not_stale|].
  rewrite not_fresh_sent; now rewrite (refreshed_not_stale c w Hstale).
Qed.

Lemma expiring_cache_is_neither_refreshed_nor_served_witness :
  refreshAttempted
    (Collect cachedCollector
       (mkScrape (someDay + 2 * time.Minute) exampleSession (someDay + 2 * time.Minute)
          (someDay + 2 * time.Minute)) []) = false
  /\ List.length
       (sent (Collect cachedCollector
                (mkScrape (someDay + 2 * time.Minute) exampleSession
                   (someDay + 2 * time.Minute) (someDay + 2 * time.Minute)) [])) = 2%nat.
Proof.
  destruct (expiring_cache_is_neither_refreshed_nor_served cachedCollector
              (mkScrape (someDay + 2 * time.Minute) exampleSession
                 (someDay + 2 * time.Minute) (someDay + 2 * time.Minute)) [])
    as (Ha & _ & Hs).
  - split; discriminate.
  - discriminate.
  - discriminate.
  - split; [exact Ha|]. rewrite Hs. reflexivity.
Defined.

(** X9: take a call that finds the cache older than [CacheDuration] and
    whose device answers both reads.  The liveness gauge is sent at 1.  The
    sensor metrics sent are those of the reading just taken when the
    second test comes less than [CacheDuration] after the clock that
    [readData] reads once both reads are done, however long the reads
    themselves have taken; when the second test comes [CacheDuration] or
    more after that clock, the reading is cached but no sensor metric is
    sent. *)
Theorem fresh_reading_is_served_at_once (c : flowercareCollector) (w : scrape)
  (ch : chan Metric) (firmware : miflora.Firmware) (sensors : miflora.Sensors) :
  time.is_Duration (CacheDuration c) ->
  CacheDuration c < time.Since (atCheck w) (Time (cache c)) ->
  ReadFirmware (session w) = Ok firmware ->
  ReadSensors (session w) = Ok sensors ->
  atRead w <= atEmit w ->
  cache (after (Collect c w ch)) = mkSensorData (atRead w) firmware sensors
  /\ firstn 2 (skipn (List.length ch) (sent (Collect c w ch))) =
       [ mkMetric (gaugeDesc (upMetric c)) GaugeValue 1%float [];
         Counter_Collect (scrapeErrorsMetric c) ]
  /\ (atEmit w - atRead w < CacheDuration c ->
      skipn (List.length ch + 2) (sent (Collect c w ch)) =
        firstn (firstFailure (sensorMetrics c (mkSensorData (atRead w) firmware sensors)))
          (sensorMetrics c (mkSensorData (atRead w) firmware sensors)))
  /\ (CacheDuration c <= atEmit w - atRead w ->
      skipn (List.length ch + 2) (sent (Collect c w ch)) = []).
Proof.
  intros Hd Hstale Hfw Hsn Hclock. apply stale_iff in Hstale.
  assert (Hr : refreshed c w =
            with_cache (with_upMetric c (Gauge_Set (upMetric c) 1%float))
              (mkSensorData (atRead w) firmware sensors)).
  { unfold refreshed, readData. now rewrite Hstale, Hfw, Hsn. }
  split; [now rewrite after_Collect, Hr|].
  split.
  { rewrite sent_Collect, skipn_app, Nat.sub_diag, skipn_all, Hr. reflexivity. }
  rewrite sent_sensors. unfold sensorPart.
  rewrite sensorMetrics_refreshed. unfold fresh.
  rewrite (proj1 (refreshed_config c w)), Hr.
  cbn [cache with_cache Time]. split.
  - intros Hlt. rewrite Since_in_range.
    + apply Z.ltb_lt in Hlt. now rewrite Hlt.
    + unfold time.is_Duration in *.
      assert (Hn : time.minDuration = -9223372036854775808) by reflexivity. lia.
  - intros Hge. apply (Since_ge _ _ _ Hd) in Hge. apply Z.ltb_ge in Hge.
    now rewrite Hge.
Qed.

(** A read of five minutes with a cache duration of two: served all the
    same one second after the read; not served two minutes after it. *)
Lemma fresh_reading_is_served_at_once_witness :
  List.length (sent (Collect exampleCollector
                       (mkScrape someDay exampleSession (someDay + 5 * time.Minute)
                          (someDay + 5 * time.Minute + time.Second)) []))
  = 9%nat
  /\ List.length (sent (Collect exampleCollector
                          (mkScrape someDay exampleSession someDay
                             (someDay + 2 * time.Minute)) []))
     = 2%nat.
Proof.
  split.
  - destruct (fresh_reading_is_served_at_once exampleCollector
                (mkScrape someDay exampleSession (someDay + 5 * time.Minute)
                   (someDay + 5 * time.Minute + time.Second)) []
                (mkFirmware "1.2" 80) (mkSensors 22.5%float 30 1200 350))
      as (_ & _ & Hfast & _).
    + split; discriminate.
    + reflexivity.
    + reflexivity.
    + reflexivity.
    + discriminate.
    + rewrite <- (firstn_skipn 2 (sent _)), length_app.
      change (skipn 2) with (@skipn Metric (List.length (@nil Metric) + 2)).
      rewrite Hfast by reflexivity. reflexivity.
  - destruct (fresh_reading_is_served_at_once exampleCollector
                (mkScrape someDay exampleSession someDay (someDay + 2 * time.Minute)) []
                (mkFirmware "1.2" 80) (mkSensors 22.5%float 30 1200 350))
      as (_ & _ & _ & Hslow).
    + split; discriminate.
    + reflexivity.
    + reflexivity.
    + reflexivity.
    + discriminate.
    + rewrite <- (firstn_skipn 2 (sent _)), length_app.
      change (skipn 2) with (@skipn Metric (List.length (@nil Metric) + 2)).
      rewrite Hslow by discriminate. reflexivity.
Defined.

(** ** The liveness gauge and the counter over a sequence of scrapes *)

Lemma gauge_after_Collect (c : flowercareCollector) (w : scrape) (ch : chan Metric) :
  gaugeValue (upMetric (after (Collect c w ch))) =
    if stale c w
    then (if sessionFails (session w) then 0%float else 1%float)
    else gaugeValue (upMetric c).
Proof.
  rewrite after_Collect. unfold refreshed.
  pose proof (readData_sessionFails c (session w) (atRead w)) as Hf.
  destruct (stale c w); [|reflexivity].
  destruct (fst (readData c (session w) (atRead w))); rewrite Hf; reflexivity.
Qed.

Lemma gauge_after_scrapes (ws : list scrape) (c : flowercareCollector)
  (prev : option bool) (init : float64) :
  gaugeValue (upMetric c) = gaugeAfter prev init ->
  gaugeValue (upMetric (scrapes c ws)) = gaugeAfter (lastRefresh c ws prev) init.
Proof.
  revert c prev. induction ws as [|w rest IH]; intros c prev Hc; simpl; [exact Hc|].
  apply IH. rewrite gauge_after_Collect.
  destruct (stale c w); [|exact Hc].
  destruct (sessionFails (session w)); reflexivity.
Qed.

(** X10: a call of [Collect] that finds the cache older than
    [CacheDuration] leaves the liveness gauge at 1 when the device answers
    both reads and at 0 when it does not, and any other call leaves the
    gauge as it is.  So after a sequence of scrapes the gauge tells what
    the device did at the last scrape that found the cache that old, and
    is what it was before when there was none; for a new collector that is
    0. *)
Theorem up_reports_last_refresh :
  (forall (c : flowercareCollector) (w : scrape) (ch : chan Metric),
     (CacheDuration c < time.Since (atCheck w) (Time (cache c)) ->
      gaugeValue (upMetric (after (Collect c w ch))) =
        if sessionFails (session w) then 0%float else 1%float)
     /\ (time.Since (atCheck w) (Time (cache c)) <= CacheDuration c ->
         gaugeValue (upMetric (after (Collect c w ch))) = gaugeValue (upMetric c)))
  /\ (forall (c : flowercareCollector) (ws : list scrape),
        gaugeValue (upMetric (scrapes c ws)) =
          gaugeAfter (lastRefresh c ws None) (gaugeValue (upMetric c)))
  /\ (forall (mac device : string) (d : time.Duration) (ws : list scrape),
        gaugeValue (upMetric (scrapes (newCollector mac device d) ws)) =
          match lastRefresh (newCollector mac device d) ws None with
          | Some true => 1%float
          | _ => 0%float
          end).
Proof.
  split; [|split].
  - intros c w ch. rewrite gauge_after_Collect. split.
    + intros Hstale. apply stale_iff in Hstale. now rewrite Hstale.
    + intros Hfresh. replace (stale c w) with false; [reflexivity|].
      symmetry. unfold stale. rewrite Z.gtb_ltb. now apply Z.ltb_ge.
  - intros c ws. now apply gauge_after_scrapes.
  - intros mac device d ws.
    rewrite (gauge_after_scrapes ws _ None 0%float) by reflexivity.
    destruct (lastRefresh _ ws None) as [[|]|]; reflexivity.
Qed.

Lemma up_reports_last_refresh_witness :
  gaugeValue (upMetric
    (after (Collect cachedCollector
              (mkScrape (someDay + 3 * time.Minute) failingSession
                 (someDay + 3 * time.Minute) (someDay + 3 * time.Minute)) []))) = 0%float
  /\ gaugeValue (upMetric
       (after (Collect cachedCollector
                 (mkScrape (someDay + time.Minute) failingSession
                    (someDay + time.Minute) (someDay + time.Minute)) []))) = 1%float.
Proof.
  split.
  - apply (proj1 (proj1 up_reports_last_refresh cachedCollector
             (mkScrape (someDay + 3 * time.Minute) failingSession
                (someDay + 3 * time.Minute) (someDay + 3 * time.Minute)) [])).
    reflexivity.
  - rewrite (proj2 (proj1 up_reports_last_refresh cachedCollector
               (mkScrape (someDay + time.Minute) failingSession
                  (someDay + time.Minute) (someDay + time.Minute)) [])).
    + reflexivity.
    + discriminate.
Defined.

(** X11: after any sequence of scrapes of a new collector, the error
    counter is between 0 and the number of scrapes, the liveness gauge is 0
    or 1, and the cache is either empty or the reading of one of these
    scrapes, whose device answered both reads; when the gauge is 1 it is
    such a reading. *)
Theorem reachable_invariants (mac device : string) (d : time.Duration)
  (ws : list scrape) :
  let c := scrapes (newCollector mac device d) ws in
  0 <= counterValue (scrapeErrorsMetric c) <= Z.of_nat (List.length ws)
  /\ (gaugeValue (upMetric c) = 0%float \/ gaugeValue (upMetric c) = 1%float)
  /\ (cache c = zeroSensorData \/ readFrom ws (cache c))
  /\ (gaugeValue (upMetric c) = 1%float -> readFrom ws (cache c)).
Proof.
  intros c. subst c.
  pose proof (scrapes_invariant ws [] _ (newCollector_invariant mac device d))
    as (Hcount & Hgauge & Hcache & Hone).
  cbn [app] in *.
  split; [exact Hcount|]. split; [exact Hgauge|]. split; [exact Hcache|exact Hone].
Qed.

Lemma reachable_invariants_witness :
  readFrom [mkScrape someDay exampleSession someDay someDay] (cache cachedCollector).
Proof.
  apply (proj2 (proj2 (proj2
           (reachable_invariants "C4:7C:8D:6A:5B:4E" "hci0" (2 * time.Minute)
              [mkScrape someDay exampleSession someDay someDay])))).
  reflexivity.
Defined.

(** ** The descriptors of a new collector *)

Lemma lower_byte_ASCII (a : ascii) :
  (byte_of a <? 0x80) = true -> (byte_of (strings.lower_byte a) <? 0x80) = true.
Proof.
  destruct a as [[] [] [] [] [] [] [] []]; intros H; vm_compute in H |- *;
    first [reflexivity | discriminate H].
Qed.

Lemma ToLower_ASCII (s : string) :
  isASCII s = true -> isASCII (strings.ToLower s) = true.
Proof.
  induction s as [|a r IH]; simpl; [reflexivity|].
  intros H. apply andb_true_iff in H. destruct H as [Ha Hr].
  now rewrite (lower_byte_ASCII a Ha), (IH Hr).
Qed.

Lemma ASCII_ValidString (s : string) :
  isASCII s = true -> utf8.ValidString s = true.
Proof.
  induction s as [|a r IH]; [reflexivity|].
  cbn [isASCII utf8.ValidString]. intros H. apply andb_true_iff in H.
  destruct H as [Ha Hr]. rewrite Ha. now apply IH.
Qed.

Lemma descError_macaddress (name : string) (vars : list string) (v : string) :
  utf8.ValidString v = true ->
  descError name vars [("macaddress"%string, v)] =
    descError name vars [("macaddress"%string, EmptyString)].
Proof.
  intros Hv. unfold descError, validateLabelValues.
  cbn [map fst snd List.length firstInvalid Nat.eqb negb].
  rewrite Hv. reflexivity.
Qed.

Lemma newCollector_descriptors_valid (mac device : string) (d : time.Duration) :
  utf8.ValidString (strings.ToLower mac) = true ->
  map err (descriptors (newCollector mac device d)) =
    [None; None; None; None; None; None; None; None; None].
Proof.
  intros Hv. unfold descriptors, newCollector, NewGauge, NewCounter, NewDesc.
  cbn [map err gaugeDesc counterDesc upMetric scrapeErrorsMetric scrapeTimestampDesc
         infoDesc batteryDesc conductivityDesc lightDesc moistureDesc temperatureDesc].
  rewrite !(descError_macaddress _ _ _ Hv). reflexivity.
Qed.

Lemma newCollector_constLabels (mac device : string) (d : time.Duration) :
  utf8.ValidString (strings.ToLower mac) = true ->
  map constLabelPairs (descriptors (newCollector mac device d)) =
    repeat [("macaddress"%string, strings.ToLower mac)] 9.
Proof.
  intros Hv. unfold descriptors, newCollector, NewGauge, NewCounter, NewDesc.
  cbn [map constLabelPairs gaugeDesc counterDesc upMetric scrapeErrorsMetric
         scrapeTimestampDesc infoDesc batteryDesc conductivityDesc lightDesc
         moistureDesc temperatureDesc].
  rewrite !(descError_macaddress _ _ _ Hv). reflexivity.
Qed.

(** X12: a collector made for a device address of ASCII bytes has nine
    valid descriptors with nine different names, each with the single
    constant label [macaddress] whose value is the address in lower case,
    and only the info descriptor has a variable label, [version].  The
    collector keeps the address as it was given, and starts with an empty
    cache, the liveness gauge at 0 and the error counter at 0. *)
Theorem newCollector_descriptors (mac device : string) (d : time.Duration) :
  isASCII mac = true ->
  let c := newCollector mac device d in
  map err (descriptors c) = [None; None; None; None; None; None; None; None; None]
  /\ Forall (fun ds => constLabelPairs ds = [("macaddress"%string, strings.ToLower mac)])
       (descriptors c)
  /\ map variableLabels (descriptors c) =
       [ []; []; []; ["version"%string]; []; []; []; []; [] ]
  /\ NoDup (map fqName (descriptors c))
  /\ MacAddress c = mac /\ Device c = device /\ CacheDuration c = d
  /\ cache c = zeroSensorData
  /\ gaugeValue (upMetric c) = 0%float
  /\ counterValue (scrapeErrorsMetric c) = 0.
Proof.
  intros Hascii c. subst c.
  pose proof (ASCII_ValidString _ (ToLower_ASCII _ Hascii)) as Hv.
  split; [now apply newCollector_descriptors_valid|].
  split.
  { apply Forall_forall. intros ds Hds.
    apply (in_map constLabelPairs) in Hds.
    rewrite (newCollector_constLabels mac device d Hv) in Hds.
    now apply repeat_spec in Hds. }
  split; [reflexivity|].
  split; [|repeat split].
  cbn. repeat constructor; cbn; intuition discriminate.
Qed.

Lemma newCollector_descriptors_witness :
  map err (descriptors exampleCollector) =
    [None; None; None; None; None; None; None; None; None]
  /\ Forall (fun ds => constLabelPairs ds = [("macaddress", "c4:7c:8d:6a:5b:4e")]%string)
       (descriptors exampleCollector).
Proof.
  destruct (newCollector_descriptors "C4:7C:8D:6A:5B:4E" "hci0" (2 * time.Minute) eq_refl)
    as (Hvalid & Hlabels & _).
  split; [exact Hvalid|exact Hlabels].
Defined.

Lemma reachable_descriptors (mac device : string) (d : time.Duration)
  (c : flowercareCollector) :
  reachable mac device d c ->
  descriptors c = descriptors (newCollector mac device d).
Proof.
  induction 1 as [|c w ch _ IH]; [reflexivity|].
  now rewrite after_Collect, descriptors_refreshed.
Qed.

Lemma sensorMetrics_descriptors (c c' : flowercareCollector) (data : sensorData) :
  descriptors c = descriptors c' -> sensorMetrics c data = sensorMetrics c' data.
Proof.
  unfold descriptors, sensorMetrics. intros H.
  injection H as _ _ -> -> -> -> -> -> ->. reflexivity.
Qed.

Lemma newCollector_constructionErrors (mac device : string) (d : time.Duration)
  (data : sensorData) :
  utf8.ValidString (strings.ToLower mac) = true ->
  map constructionError (sensorMetrics (newCollector mac device d) data) =
    [ None;
      if utf8.ValidString (Version (Firmware data)) then None
      else Some (errInvalidUTF8 (Version (Firmware data)));
      None; None; None; None; None ].
Proof.
  intros Hv.
  unfold sensorMetrics, newCollector, NewDesc, constructionError, NewConstMetric.
  cbn [map desc valType value labelValues err variableLabels scrapeTimestampDesc
         infoDesc batteryDesc conductivityDesc lightDesc moistureDesc temperatureDesc].
  rewrite !(descError_macaddress _ _ _ Hv).
  unfold validateLabelValues. cbn [List.length Nat.eqb negb firstInvalid].
  destruct (utf8.ValidString (Version (Firmware data))); reflexivity.
Qed.

Lemma collectData_all_sent (c : flowercareCollector) (ch : chan Metric)
  (data : sensorData) :
  (forall m, In m (sensorMetrics c data) -> constructionError m = None) ->
  collectData c ch data = (ch ++ sensorMetrics c data, None).
Proof.
  intros Hall. rewrite collectData_result, (firstFailure_none _ Hall), firstn_all.
  now rewrite (proj2 (nth_error_None _ _) (Nat.le_refl _)).
Qed.

Lemma collectData_stops_at (c : flowercareCollector) (ch : chan Metric)
  (data : sensorData) (k : nat) (m : Metric) (e : error) :
  (forall j m', (j < k)%nat -> nth_error (sensorMetrics c data) j = Some m' ->
                constructionError m' = None) ->
  nth_error (sensorMetrics c data) k = Some m ->
  constructionError m = Some e ->
  collectData c ch data =
    (ch ++ firstn k (sensorMetrics c data),
     Some (errCanNotCreateMetric (fqName (desc m)) e)).
Proof.
  intros Hbefore Hk He.
  now rewrite collectData_result, (firstFailure_at _ k m e Hbefore Hk He), Hk, He.
Qed.

(** X13: with a device address of ASCII bytes, the only thing that can
    make [collectData] fail in a collector the exporter can be in is a
    firmware version that is not valid UTF-8.  With a valid version all
    seven sensor metrics are sent and no error is returned; otherwise the
    timestamp alone is sent and the error names the info metric. *)
Theorem collectData_fails_only_on_version (mac device : string) (d : time.Duration)
  (c : flowercareCollector) (ch : chan Metric) (data : sensorData) :
  isASCII mac = true ->
  reachable mac device d c ->
  collectData c ch data =
    if utf8.ValidString (Version (Firmware data))
    then (ch ++ sensorMetrics c data, None)
    else (ch ++ [ mkMetric (scrapeTimestampDesc c) GaugeValue
                    (float64_of_Z (time.Unix (Time data))) [] ],
          Some (errCanNotCreateMetric "flowercare_info"
                  (errInvalidUTF8 (Version (Firmware data))))).
Proof.
  intros Hascii Hreach.
  pose proof (reachable_descriptors _ _ _ _ Hreach) as Hd.
  pose proof (newCollector_constructionErrors mac device d data
                (ASCII_ValidString _ (ToLower_ASCII _ Hascii))) as He.
  rewrite <- (sensorMetrics_descriptors _ _ data Hd) in He.
  assert (Hinfo : fqName (infoDesc c) = "flowercare_info"%string).
  { unfold descriptors in Hd. injection Hd as _ _ _ -> _ _ _ _ _. reflexivity. }
  destruct (utf8.ValidString (Version (Firmware data))).
  - apply collectData_all_sent. intros m Hm.
    apply (in_map constructionError) in Hm. rewrite He in Hm.
    simpl in Hm. intuition congruence.
  - rewrite <- Hinfo.
    apply (collectData_stops_at c ch data 1%nat
             (mkMetric (infoDesc c) GaugeValue 1%float [Version (Firmware data)])).
    + intros [|j] m' Hj Hm'; [|lia]. injection Hm' as <-.
      exact (f_equal (fun l => nth 0 l None) He).
    + reflexivity.
    + exact (f_equal (fun l => nth 1 l None) He).
Qed.

Lemma collectData_fails_only_on_version_witness :
  snd (collectData cachedCollector [] garbledData) =
    Some (errCanNotCreateMetric "flowercare_info" (errInvalidUTF8 garbledVersion))
  /\ snd (collectData cachedCollector [] exampleData) = None.
Proof.
  assert (Hr : reachable "C4:7C:8D:6A:5B:4E" "hci0" (2 * time.Minute) cachedCollector)
    by (apply reachable_Collect, reachable_new).
  split.
  - rewrite (collectData_fails_only_on_version "C4:7C:8D:6A:5B:4E" "hci0"
               (2 * time.Minute) cachedCollector [] garbledData eq_refl Hr).
    reflexivity.
  - rewrite (collectData_fails_only_on_version "C4:7C:8D:6A:5B:4E" "hci0"
               (2 * time.Minute) cachedCollector [] exampleData eq_refl Hr).
    reflexivity.
Defined.

(** X14: with a device address of ASCII bytes, a call of [Collect] in a
    collector the exporter can be in adds two metrics (no sensor metric),
    three (the timestamp alone, the firmware version not being valid UTF-8)
    or all nine, and never another number. *)
Theorem Collect_sends_two_three_or_nine (mac device : string) (d : time.Duration)
  (c : flowercareCollector) (w : scrape) (ch : chan Metric) :
  isASCII mac = true ->
  reachable mac device d c ->
  let n := List.length (skipn (List.length ch) (sent (Collect c w ch))) in
  n = 2%nat
  \/ (n = 3%nat
      /\ utf8.ValidString (Version (Firmware (cache (after (Collect c w ch))))) = false)
  \/ n = 9%nat.
Proof.
  intros Hascii Hreach n. subst n.
  rewrite sent_Collect, skipn_app, Nat.sub_diag, skipn_all, after_Collect.
  cbn [skipn app List.length]. unfold sensorPart.
  destruct (fresh (refreshed c w) w); [|now left].
  assert (Hr : reachable mac device d (refreshed c w)).
  { rewrite <- (after_Collect c w []). now apply reachable_Collect. }
  pose proof (reachable_descriptors _ _ _ _ Hr) as Hd.
  pose proof (newCollector_constructionErrors mac device d (cache (refreshed c w))
                (ASCII_ValidString _ (ToLower_ASCII _ Hascii))) as He.
  rewrite <- (sensorMetrics_descriptors _ _ _ Hd) in He.
  destruct (utf8.ValidString (Version (Firmware (cache (refreshed c w))))) eqn:Ev.
  - right. right. rewrite firstFailure_none, firstn_all; [reflexivity|].
    intros m Hm. apply (in_map constructionError) in Hm. rewrite He in Hm.
    simpl in Hm. intuition congruence.
  - right. left. split; [|reflexivity].
    rewrite (firstFailure_at _ 1%nat
               (mkMetric (infoDesc (refreshed c w)) GaugeValue 1%float
                  [Version (Firmware (cache (refreshed c w)))])
               (errInvalidUTF8 (Version (Firmware (cache (refreshed c w)))))).
    + reflexivity.
    + intros [|j] m' Hj Hm'; [|lia]. injection Hm' as <-.
      exact (f_equal (fun l => nth 0 l None) He).
    + reflexivity.
    + exact (f_equal (fun l => nth 1 l None) He).
Qed.

Lemma Collect_sends_two_three_or_nine_witness :
  List.length (sent (Collect exampleCollector
                       (mkScrape someDay garbledSession someDay someDay) [])) = 3%nat.
Proof.
  destruct (Collect_sends_two_three_or_nine "C4:7C:8D:6A:5B:4E" "hci0" (2 * time.Minute)
              exampleCollector (mkScrape someDay garbledSession someDay someDay) []
              eq_refl (reachable_new _ _ _)) as [H|[[H _]|H]];
    first [exact H | discriminate H].
Defined.

(** ** The command line *)

(** X15: [parseConfig] returns without an error exactly when
    [pflag.Parse] has parsed the command line, and has not ended the
    process, and the device address and the adapter it ends up with are
    not empty.  [parseConfig] itself checks nothing else: whatever listen
    address and cache duration [pflag.Parse] has parsed are taken, a zero or
    negative duration too.  The configuration returned, with or without an
    error, has each flag that was given and [:9294], [hci0] and two minutes
    for those that were not, and an empty device address is reported before
    an empty adapter. *)
Theorem parseConfig_accepts (p : parsing) :
  (forall cfg,
     parseConfigFrom p = returned cfg None <->
     exists args,
       p = pflagParsed args
       /\ flagOr (flagDevice args) EmptyString <> EmptyString
       /\ flagOr (flagAdapter args) "hci0"%string <> EmptyString
       /\ cfg = mkConfig (flagOr (flagAddr args) ":9294"%string)
                  (flagOr (flagDevice args) EmptyString)
                  (flagOr (flagAdapter args) "hci0"%string)
                  (flagOr (flagCacheDuration args) 120000000000))
  /\ (forall status, p = pflagExits status -> parseConfigFrom p = exited status)
  /\ (forall args, p = pflagParsed args ->
        fst (parseConfig args) =
          mkConfig (flagOr (flagAddr args) ":9294"%string)
            (flagOr (flagDevice args) EmptyString)
            (flagOr (flagAdapter args) "hci0"%string)
            (flagOr (flagCacheDuration args) 120000000000)
        /\ (flagOr (flagDevice args) EmptyString = EmptyString ->
            parseConfigFrom p =
              returned (fst (parseConfig args)) (Some errNeedDeviceAddress))
        /\ (flagOr (flagDevice args) EmptyString <> EmptyString ->
            flagOr (flagAdapter args) "hci0"%string = EmptyString ->
            parseConfigFrom p =
              returned (fst (parseConfig args)) (Some errNeedBluetoothDevice))).
Proof.
  assert (Hargs : forall args,
            fst (parseConfig args) =
              mkConfig (flagOr (flagAddr args) ":9294"%string)
                (flagOr (flagDevice args) EmptyString)
                (flagOr (flagAdapter args) "hci0"%string)
                (flagOr (flagCacheDuration args) 120000000000)
            /\ snd (parseConfig args) =
                 if Nat.eqb (String.length (flagOr (flagDevice args) EmptyString)) 0
                 then Some errNeedDeviceAddress
                 else if Nat.eqb (String.length (flagOr (flagAdapter args) "hci0"%string)) 0
                      then Some errNeedBluetoothDevice
                      else None).
  { intros args. unfold parseConfig.
    cbn [ListenAddr cfgMacAddress cfgDevice cfgCacheDuration].
    destruct (Nat.eqb (String.length (flagOr (flagDevice args) EmptyString)) 0);
      [|destruct (Nat.eqb (String.length (flagOr (flagAdapter args) "hci0"%string)) 0)];
      split; reflexivity. }
  split; [|split].
  - intros cfg. split.
    + destruct p as [status|args]; cbn [parseConfigFrom]; [discriminate|].
      destruct (Hargs args) as [Hfst Hsnd]. intros H. injection H as Hc He.
      exists args. split; [reflexivity|]. rewrite Hsnd in He.
      destruct (Nat.eqb (String.length (flagOr (flagDevice args) EmptyString)) 0) eqn:Emac;
        [discriminate|].
      destruct (Nat.eqb (String.length (flagOr (flagAdapter args) "hci0"%string)) 0)
        eqn:Edev; [discriminate|].
      split; [intros H; apply length_zero_empty in H; congruence|].
      split; [intros H; apply length_zero_empty in H; congruence|].
      now rewrite <- Hc, Hfst.
    + intros (args & -> & Hmac & Hdev & ->). cbn [parseConfigFrom].
      destruct (Hargs args) as [-> ->].
      destruct (Nat.eqb (String.length (flagOr (flagDevice args) EmptyString)) 0) eqn:Emac;
        [apply length_zero_empty in Emac; contradiction|].
      destruct (Nat.eqb (String.length (flagOr (flagAdapter args) "hci0"%string)) 0)
        eqn:Edev; [apply length_zero_empty in Edev; contradiction|].
      reflexivity.
  - intros status ->. reflexivity.
  - intros args ->. cbn [parseConfigFrom]. destruct (Hargs args) as [Hfst Hsnd].
    split; [exact Hfst|]. rewrite Hsnd. split.
    + intros Hmac. apply length_zero_empty in Hmac. now rewrite Hmac.
    + intros Hmac Hdev. apply length_zero_empty in Hdev.
      destruct (Nat.eqb (String.length (flagOr (flagDevice args) EmptyString)) 0) eqn:Emac;
        [apply length_zero_empty in Emac; contradiction|].
      now rewrite Hdev.
Qed.

Lemma parseConfig_accepts_witness :
  parseConfigFrom (pflagParsed (mkFlags None (Some "C4:7C:8D:6A:5B:4E"%string) None
                                  (Some (-1)))) =
    returned (mkConfig ":9294" "C4:7C:8D:6A:5B:4E" "hci0" (-1)) None
  /\ parseConfigFrom (pflagExits 2) = exited 2
  /\ parseConfigFrom (pflagParsed (mkFlags None None (Some EmptyString) None)) =
       returned (mkConfig ":9294" EmptyString EmptyString 120000000000)
         (Some errNeedDeviceAddress)
  /\ parseConfigFrom (pflagParsed (mkFlags None (Some "C4:7C:8D:6A:5B:4E"%string)
                                     (Some EmptyString) None)) =
       returned (mkConfig ":9294" "C4:7C:8D:6A:5B:4E" EmptyString 120000000000)
         (Some errNeedBluetoothDevice).
Proof.
  split; [|split; [|split]].
  - apply (proj1 (parseConfig_accepts _)).
    exists (mkFlags None (Some "C4:7C:8D:6A:5B:4E"%string) None (Some (-1))).
    split; [reflexivity|]. split; [discriminate|]. split; [discriminate|reflexivity].
  - apply (proj1 (proj2 (parseConfig_accepts (pflagExits 2))) 2 eq_refl).
  - apply (proj1 (proj2 (proj2 (proj2 (parseConfig_accepts _))
             (mkFlags None None (Some EmptyString) None) eq_refl))).
    reflexivity.
  - apply (proj2 (proj2 (proj2 (proj2 (parseConfig_accepts _))
             (mkFlags None (Some "C4:7C:8D:6A:5B:4E"%string) (Some EmptyString) None)
             eq_refl))).
    + discriminate.
    + reflexivity.
Defined.

(** X16: [main] opens the reader of the device exactly when [parseConfig]
    returned no error, and then for the device address and the adapter of
    the configuration; it listens exactly when, in addition, the collector
    could be registered, and then on the listen address of the
    configuration.  When registering fails, that error is the last thing
    [main] does. *)
Theorem main_serves_valid_configuration (args : flags) (registered : option error) :
  (forall mac device,
     In (actDataReader mac device) (main args registered) <->
     snd (parseConfig args) = None
     /\ mac = cfgMacAddress (fst (parseConfig args))
     /\ device = cfgDevice (fst (parseConfig args)))
  /\ (forall addr,
        In (actListenAndServe addr) (main args registered) <->
        snd (parseConfig args) = None
        /\ registered = None
        /\ addr = ListenAddr (fst (parseConfig args)))
  /\ (forall e, snd (parseConfig args) = None -> registered = Some e ->
        last (main args registered) actRegister = actFatalRegister e).
Proof.
  unfold main. destruct (parseConfig args) as [config [e|]]; cbn [fst snd].
  - split; [|split].
    + intros mac device. split.
      * intros [H|[]]. discriminate H.
      * intros [H _]. discriminate H.
    + intros addr. split.
      * intros [H|[]]. discriminate H.
      * intros [H _]. discriminate H.
    + intros e' H. discriminate H.
  - split; [|split].
    + intros mac device. split.
      * intros H. split; [reflexivity|].
        destruct registered; simpl in H;
          repeat (destruct H as [H|H]; [try discriminate H|]);
          try contradiction; injection H as <- <-; now split.
      * intros (_ & -> & ->). right. now left.
    + intros addr. split.
      * intros H.
        destruct registered; simpl in H;
          repeat (destruct H as [H|H]; [try discriminate H|]);
          try contradiction. injection H as <-. now repeat split.
      * intros (_ & -> & ->). simpl. do 7 right. now left.
    + intros e _ ->. reflexivity.
Qed.

Lemma main_serves_valid_configuration_witness :
  In (actListenAndServe ":9294")
    (main (mkFlags None (Some "C4:7C:8D:6A:5B:4E"%string) None None) None)
  /\ last (main (mkFlags None (Some "C4:7C:8D:6A:5B:4E"%string) None None)
             (Some errDuplicateLabelNames)) actRegister
     = actFatalRegister errDuplicateLabelNames.
Proof.
  split.
  - apply (proj1 (proj2 (main_serves_valid_configuration
             (mkFlags None (Some "C4:7C:8D:6A:5B:4E"%string) None None) None))).
    now repeat split.
  - apply (proj2 (proj2 (main_serves_valid_configuration
             (mkFlags None (Some "C4:7C:8D:6A:5B:4E"%string) None None)
             (Some errDuplicateLabelNames)))); reflexivity.
Defined.
